(** * RAG chatbot: the query-to-answer pipeline, its HTTP wrapper and the
      offline knowledge-base builder

    A shallow embedding of

    - [app/chatbot_service.py]  (class [ChatbotService]),
    - [app/main.py]             (the FastAPI handler [handle_chat_query]),
    - [scripts/build_knowledge_base.py] ([load_faqs], [preprocess_faqs],
      [generate_embeddings], [store_in_chromadb] and the script itself),
    - [streamlit_app.py]        (one run of the chat page).

    Conventions of the embedding.

    - A Python [str] is a [string]; one [ascii] stands for one character.
    - Python code that may raise runs in a state-and-exception monad [M S]:
      a computation maps a state to a [result] and the next state.  A
      [try: ... except Exception: ...] block is [try_except].
    - The sentence-transformer model, the Chroma collection and the
      chat-completion client are external.  At query time they are fields of
      the [ChatbotService] record: arbitrary functions over an abstract
      world [W] that return a value or raise.  Every call the service makes
      to one of them is appended to the call log of the state, so that the
      number and the order of the calls can be stated.
    - numpy arrays are represented by the nested lists their [tolist()]
      gives; the float type [pyfloat] is abstract.
    - [print] and [logger] lines write to the console only and are left out. *)

From Stdlib Require Import ZArith QArith Ascii DecimalString DecimalNat.
From stdpp Require Import base gmap strings list.

Set Default Proof Using "Type".

(* ================================================================== *)
(** * Python strings *)
(* ================================================================== *)

Module PyStr.

(** The characters: line feed and the double quote. *)
Definition LF : string := String (ascii_of_nat 10) EmptyString.
Definition DQUOTE : string := String (ascii_of_nat 34) EmptyString.

(** [c.isspace()] on the characters below 256: tab to carriage return,
    the four separators 28 to 31, space, NEL and the no-break space. *)
Definition isspace (c : ascii) : bool :=
  let n := nat_of_ascii c in
  ((9 <=? n) && (n <=? 13)) || ((28 <=? n) && (n <=? 32))
  || (n =? 133) || (n =? 160).

(** [s.lstrip()], [s.rstrip()] and [s.strip()] without argument. *)
Fixpoint lstrip (s : string) : string :=
  match s with
  | EmptyString => EmptyString
  | String c s' => if isspace c then lstrip s' else s
  end.

Fixpoint rstrip (s : string) : string :=
  match s with
  | EmptyString => EmptyString
  | String c s' =>
      match rstrip s' with
      | EmptyString => if isspace c then EmptyString else String c EmptyString
      | r => String c r
      end
  end.

Definition strip (s : string) : string := rstrip (lstrip s).

(** [not s] for a string: true exactly on the empty string. *)
Definition is_empty (s : string) : bool :=
  match s with EmptyString => true | String _ _ => false end.

(** [sep.join(l)]. *)
Fixpoint join (sep : string) (l : list string) : string :=
  match l with
  | [] => EmptyString
  | x :: rest =>
      match rest with
      | [] => x
      | _ :: _ => x +:+ sep +:+ join sep rest
      end
  end.

(** [t.startswith(p)] and [s in t]. *)
Fixpoint startswith (p t : string) : bool :=
  match p, t with
  | EmptyString, _ => true
  | String _ _, EmptyString => false
  | String a p', String b t' =>
      if decide (a = b) then startswith p' t' else false
  end.

Fixpoint is_in (s t : string) : bool :=
  startswith s t
  || match t with
     | EmptyString => false
     | String _ t' => is_in s t'
     end.

(** The text around one element of a joined list, for stating where
    the elements of [sep.join(l)] lie: [each_then sep l] is every element
    of [l] followed by [sep], [then_each sep l] every element preceded by
    [sep]. *)
Fixpoint each_then (sep : string) (l : list string) : string :=
  match l with
  | [] => EmptyString
  | x :: l' => x +:+ sep +:+ each_then sep l'
  end.

Fixpoint then_each (sep : string) (l : list string) : string :=
  match l with
  | [] => EmptyString
  | x :: l' => sep +:+ x +:+ then_each sep l'
  end.

(** [str(i)] for a natural number: its decimal numeral. *)
Definition str_of_nat (i : nat) : string :=
  NilEmpty.string_of_uint (Nat.to_uint i).

End PyStr.

(* ================================================================== *)
(** * Exceptions, results and the state-and-exception monad *)
(* ================================================================== *)

Module Py.

(** Instances of Python's [Exception] that occur in the three files,
    [HTTPException] of FastAPI among them; [OtherError] stands for
    any further subclass an external library may raise. *)
Inductive exn : Type :=
| IndexError
| TypeError
| AttributeError
| KeyError (key : string)
| ValueError (msg : string)
| ConnectionError
| TimeoutError
| OtherError (name : string)
| HTTPException (status_code : Z) (detail : string).

Inductive result (A : Type) : Type :=
| Ok (a : A)
| Raise (e : exn).
Global Arguments Ok {A} a.
Global Arguments Raise {A} e.

Definition M (S A : Type) : Type := S -> result A * S.

Definition ret {S A} (a : A) : M S A := fun st => (Ok a, st).

Definition raise {S A} (e : exn) : M S A := fun st => (Raise e, st).

Definition bind {S A B} (m : M S A) (k : A -> M S B) : M S B :=
  fun st =>
    match m st with
    | (Ok a, st') => k a st'
    | (Raise e, st') => (Raise e, st')
    end.

(** [try: m  except Exception as e: h e].  What [m] did to the state
    before it raised stays done. *)
Definition try_except {S A} (m : M S A) (h : exn -> M S A) : M S A :=
  fun st =>
    match m st with
    | (Ok a, st') => (Ok a, st')
    | (Raise e, st') => h e st'
    end.

(** A pure expression that may raise. *)
Definition lift {S A} (r : result A) : M S A := fun st => (r, st).

(** [l[0]]. *)
Definition getitem0 {A} (l : list A) : result A :=
  match l with
  | [] => Raise IndexError
  | x :: _ => Ok x
  end.

End Py.

Export Py.

Declare Scope py_scope.
Delimit Scope py_scope with py.
Notation "'let!' x ':=' m 'in' k" := (bind m (fun x => k))
  (at level 10, x pattern, m at level 100, k at level 200) : py_scope.
Notation "m ';;' k" := (bind m (fun _ => k))
  (at level 100, k at level 200, right associativity) : py_scope.
Open Scope py_scope.

(* ================================================================== *)
(** * The vector store *)
(* ================================================================== *)

(** chromadb is an external library.  Its data and the client operations
    the builder calls are modelled here: a database directory holds named
    collections, a collection is the list of its items in insertion
    order.  Every operation can raise: for what the library checks on
    its arguments, as far as that is written out below, and for reasons
    that lie outside this model (a path that cannot be created, a
    database that cannot be opened or written, a value the library does
    not take), which the [Faults] of the disk stand for. *)
Module Chroma.

(** A metadata value and a metadata dictionary. *)
Inductive MetaValue : Type :=
| MStr (s : string)
| MInt (z : Z).

Global Instance MetaValue_eq_dec : EqDecision MetaValue.
Proof. solve_decision. Defined.

Abbreviation Metadata := (gmap string MetaValue).

(** An integer is stored in 64 bits. *)
Definition valid_value (v : MetaValue) : bool :=
  match v with
  | MStr _ => true
  | MInt z => bool_decide (- 2 ^ 63 <= z < 2 ^ 63)%Z
  end.

(** A metadata dictionary must not be empty. *)
Definition valid_metadata (m : Metadata) : bool :=
  negb (bool_decide (m = ∅))
  && bool_decide (map_Forall (fun _ v => valid_value v = true) m).

Section Store.

Context {pyfloat : Type}.

Record Item : Type := {
  item_id : string;
  item_embedding : list pyfloat;
  item_document : string;
  item_metadata : Metadata
}.

(** The client calls, logged with their arguments. *)
Inductive ClientCall : Type :=
| DeleteCollection (name : string)
| GetOrCreateCollection (name : string)
| Add (name : string) (embeddings : list (list pyfloat))
      (documents : list string) (metadatas : list Metadata)
      (ids : list string).

(** What fails for reasons outside the model, and with which
    exception: making a directory, opening the client on a path, and
    each client call. *)
Record Faults : Type := {
  fails_makedirs : string -> option exn;
  fails_client : string -> option exn;
  fails_call : ClientCall -> option exn
}.

Definition no_faults : Faults :=
  {| fails_makedirs := fun _ => None;
     fails_client := fun _ => None;
     fails_call := fun _ => None |}.

(** The file system as the builder sees it: the directories that exist,
    the collections keyed by database path and collection name, the
    log of client calls, and what fails. *)
Record Disk : Type := {
  directories : gset string;
  collections : gmap (string * string) (list Item);
  client_calls : list ClientCall;
  faults : Faults
}.

Definition log_call (c : ClientCall) (d : Disk) : Disk :=
  {| directories := directories d;
     collections := collections d;
     client_calls := client_calls d ++ [c];
     faults := faults d |}.

Definition set_collections (cs : gmap (string * string) (list Item)) (d : Disk)
  : Disk :=
  {| directories := directories d;
     collections := cs;
     client_calls := client_calls d;
     faults := faults d |}.

Definition add_directory (path : string) (d : Disk) : Disk :=
  {| directories := {[path]} ∪ directories d;
     collections := collections d;
     client_calls := client_calls d;
     faults := faults d |}.

(** [os.path.exists(path)] and [os.makedirs(path)]. *)
Definition os_path_exists (path : string) : M Disk bool :=
  fun d => (Ok (bool_decide (path ∈ directories d)), d).

Definition os_makedirs (path : string) : M Disk unit :=
  fun d =>
    if bool_decide (path ∈ directories d)
    then (Raise (OtherError "FileExistsError"), d)
    else match fails_makedirs (faults d) path with
         | Some e => (Raise e, d)
         | None => (Ok tt, add_directory path d)
         end.

(** [chromadb.PersistentClient(path=path)]: the handle is the path; the
    directory is made when it is missing. *)
Definition PersistentClient (path : string) : M Disk string :=
  fun d =>
    match fails_client (faults d) path with
    | Some e => (Raise e, d)
    | None => (Ok path, add_directory path d)
    end.

(** [client.delete_collection(name=name)] raises when there is no such
    collection; when it raises for another reason the collection
    stays. *)
Definition delete_collection (client name : string) : M Disk unit :=
  fun d =>
    let d := log_call (DeleteCollection name) d in
    match fails_call (faults d) (DeleteCollection name) with
    | Some e => (Raise e, d)
    | None =>
        match collections d !! (client, name) with
        | Some _ =>
            (Ok tt, set_collections (delete (client, name) (collections d)) d)
        | None => (Raise (ValueError "Collection does not exist."), d)
        end
    end.

(** [client.get_or_create_collection(name=name)]: the handle is the key
    of the collection. *)
Definition get_or_create_collection (client name : string)
  : M Disk (string * string) :=
  fun d =>
    let d := log_call (GetOrCreateCollection name) d in
    match fails_call (faults d) (GetOrCreateCollection name) with
    | Some e => (Raise e, d)
    | None =>
        match collections d !! (client, name) with
        | Some _ => (Ok (client, name), d)
        | None =>
            (Ok (client, name),
             set_collections (<[(client, name) := []]> (collections d)) d)
        end
    end.

Fixpoint make_items (ids : list string) (embeddings : list (list pyfloat))
    (documents : list string) (metadatas : list Metadata) : list Item :=
  match ids, embeddings, documents, metadatas with
  | i :: ids', e :: embeddings', t :: documents', m :: metadatas' =>
      {| item_id := i; item_embedding := e;
         item_document := t; item_metadata := m |}
      :: make_items ids' embeddings' documents' metadatas'
  | _, _, _, _ => []
  end.

(** An embedding has at least one component. *)
Definition valid_embedding (e : list pyfloat) : bool :=
  match e with
  | [] => false
  | _ :: _ => true
  end.

(** The embeddings of a collection are of one dimension: those of a
    call must agree with each other and with what the collection
    holds. *)
Definition same_dimension (old : list Item)
    (embeddings : list (list pyfloat)) : bool :=
  match embeddings with
  | [] => true
  | e :: _ =>
      forallb (fun e' => Nat.eqb (length e') (length e))
              (map item_embedding old ++ embeddings)
  end.

(** [collection.add(embeddings=, documents=, metadatas=, ids=)]: the ids
    must be a non-empty list without duplicates, the four lists of one
    length, no embedding and no metadata dictionary empty, the
    embeddings of the dimension of the collection, and an integer in a
    dictionary within 64 bits; an item whose id the collection already
    has is ignored.  What else the library refuses (a batch that is too
    large, a database that cannot be written) is among the faults. *)
Definition collection_add (handle : string * string)
    (embeddings : list (list pyfloat)) (documents : list string)
    (metadatas : list Metadata) (ids : list string) : M Disk unit :=
  fun d =>
    let d := log_call (Add handle.2 embeddings documents metadatas ids) d in
    match collections d !! handle with
    | None => (Raise (ValueError "Collection does not exist."), d)
    | Some old =>
        match fails_call (faults d)
                (Add handle.2 embeddings documents metadatas ids) with
        | Some e => (Raise e, d)
        | None =>
            if bool_decide (ids = []) then
              (Raise (ValueError "Expected IDs to be a non-empty list"), d)
            else if negb (bool_decide (length embeddings = length ids
                                       ∧ length documents = length ids
                                       ∧ length metadatas = length ids)) then
              (Raise (ValueError "Unequal lengths"), d)
            else if negb (bool_decide (NoDup ids)) then
              (Raise (OtherError "DuplicateIDError"), d)
            else if negb (forallb valid_embedding embeddings) then
              (Raise (ValueError "Expected each embedding to be non-empty"), d)
            else if negb (same_dimension old embeddings) then
              (Raise (OtherError "InvalidDimensionException"), d)
            else if negb (forallb valid_metadata metadatas) then
              (Raise (ValueError "Expected metadata to be a non-empty dict of str, int, float or bool"), d)
            else
              let fresh :=
                filter (fun it => item_id it ∉ map item_id old)
                       (make_items ids embeddings documents metadatas) in
              (Ok tt,
               set_collections (<[handle := old ++ fresh]> (collections d)) d)
        end
    end.

End Store.

Global Arguments Item : clear implicits.
Global Arguments ClientCall : clear implicits.
Global Arguments Faults : clear implicits.
Global Arguments Disk : clear implicits.

End Chroma.

(* ================================================================== *)
(** * app/chatbot_service.py *)
(* ================================================================== *)

Module chatbot_service.

Import PyStr Chroma.

Definition COLLECTION_NAME : string := "faq_collection".
Definition OLLAMA_MODEL_NAME : string := "koesn/llama3-8b-instruct:latest".

(** The sampling temperature, the literal [0.3] of the source. *)
Definition TEMPERATURE : Q := 3 # 10.

(** One chat message [{"role": ..., "content": ...}]. *)
Record Message : Type := { role : string; content : string }.

(** The part of a chat completion the service reads:
    [response.choices[i].message.content], which may be [None]. *)
Record Choice : Type := { message_content : option string }.
Record ChatCompletion : Type := { choices : list Choice }.

(** A key of the dictionary [collection.query] returns: absent, present
    with value [None], or present with one row per query embedding. *)
Inductive Field (A : Type) : Type :=
| Absent
| IsNone
| Rows (rows : list (list A)).
Global Arguments Absent {A}.
Global Arguments IsNone {A}.
Global Arguments Rows {A} rows.

(** [results.get(key, [[]])[0]] *)
Definition get_first_row {A} (f : Field A) : result (list A) :=
  match f with
  | Absent => getitem0 [[]]
  | IsNone => Raise TypeError
  | Rows rows => getitem0 rows
  end.

Section Service.

Context {W pyfloat : Type}.

Record QueryResult : Type := {
  documents : Field string;
  metadatas : Field Metadata;
  distances : Field pyfloat
}.

(** The calls the service makes to its three collaborators, with
    their arguments. *)
Inductive Call : Type :=
| CallEncode (text : string)
| CallQuery (query_embeddings : list (list pyfloat)) (n_results : Z)
            (include : list string)
| CallCreate (model : string) (messages : list Message) (temperature : Q).

Record State : Type := { world : W; calls : list Call }.

(** An external operation acts on the world only; [extern] runs it
    and logs the call. *)
Definition extern {A} (c : Call) (op : W -> result A * W) : M State A :=
  fun st =>
    let (r, w') := op (world st) in
    (r, {| world := w'; calls := calls st ++ [c] |}).

(** The handles [__init__] stores in [self]:
    [self.embedding_model.encode], [self.collection.query] and
    [self.llm_client.chat.completions.create]. *)
Record ChatbotService : Type := {
  embedding_model_encode : string -> W -> result (list pyfloat) * W;
  collection_query :
    list (list pyfloat) -> Z -> list string -> W -> result QueryResult * W;
  llm_client_create :
    string -> list Message -> Q -> W -> result ChatCompletion * W
}.

Definition _embed_query (self : ChatbotService) (query : string)
  : M State (list pyfloat) :=
  let! query_embedding :=
    extern (CallEncode query) (embedding_model_encode self query) in
  ret query_embedding.

Definition INCLUDE : list string := ["documents"; "metadatas"; "distances"].

Definition _retrieve_context (self : ChatbotService)
    (query_embedding : list pyfloat) (n_results : Z)
  : M State (list string * list Metadata * list pyfloat) :=
  try_except
    (let! results :=
       extern (CallQuery [query_embedding] n_results INCLUDE)
              (collection_query self [query_embedding] n_results INCLUDE) in
     let! retrieved_docs := lift (get_first_row (documents results)) in
     let! retrieved_metadatas := lift (get_first_row (metadatas results)) in
     let! retrieved_distances := lift (get_first_row (distances results)) in
     ret (retrieved_docs, retrieved_metadatas, retrieved_distances))
    (fun e => ret ([], [], [])).

(** The f-string of [_construct_prompt], line by line. *)
Definition prompt_template (context_str query : string) : string :=
  "You are an empathetic and helpful AI assistant. Your primary goal is to assist users with their questions based *only* on the information provided in the "
    +:+ DQUOTE +:+ "Knowledge Base Context" +:+ DQUOTE +:+ " below." +:+ LF +:+
  "If the context does not contain the answer to the question, clearly state that you don't have enough information from the knowledge base. Do not make up information or answer from your general knowledge." +:+ LF +:+
  "Be polite, understanding, and aim to provide clear and concise answers." +:+ LF +:+
  LF +:+
  "Knowledge Base Context:" +:+ LF +:+
  "---" +:+ LF +:+
  context_str +:+ LF +:+
  "---" +:+ LF +:+
  LF +:+
  "User's Question: " +:+ query +:+ LF +:+
  LF +:+
  "Helpful and Empathetic Answer (based *only* on the Knowledge Base Context):" +:+ LF.

(** The sentence that stands for the context when nothing was retrieved. *)
Definition NO_CONTEXT_SENTENCE : string :=
  "No specific information found in the knowledge base for this query.".

Definition _construct_prompt (query : string) (context_documents : list string)
  : string :=
  let context_str :=
    match context_documents with
    | [] => NO_CONTEXT_SENTENCE
    | _ :: _ => join (LF +:+ LF) context_documents
    end in
  prompt_template context_str query.

(** The two sentences of the template that bind the model to the
    context: answer from the context only, and say so when the context
    does not hold the answer. *)
Definition GROUNDING_INSTRUCTION : string :=
  "Your primary goal is to assist users with their questions based *only* on the information provided in the "
    +:+ DQUOTE +:+ "Knowledge Base Context" +:+ DQUOTE +:+ " below." +:+ LF +:+
  "If the context does not contain the answer to the question, clearly state that you don't have enough information from the knowledge base. Do not make up information or answer from your general knowledge.".

(** The fixed text of the template: before the context, between the
    context and the question, and after the question. *)
Definition PROMPT_HEAD : string :=
  "You are an empathetic and helpful AI assistant. " +:+ GROUNDING_INSTRUCTION
    +:+ LF +:+
  "Be polite, understanding, and aim to provide clear and concise answers."
    +:+ LF +:+ LF +:+ "Knowledge Base Context:" +:+ LF +:+ "---" +:+ LF.

Definition PROMPT_MIDDLE : string :=
  LF +:+ "---" +:+ LF +:+ LF +:+ "User's Question: ".

Definition PROMPT_TAIL : string :=
  LF +:+ LF +:+
  "Helpful and Empathetic Answer (based *only* on the Knowledge Base Context):"
    +:+ LF.

Definition SYSTEM_MESSAGE : Message :=
  {| role := "system";
     content := "You are a helpful AI assistant designed to answer questions based on provided context." |}.

(** The string the [except] branch of [_generate_llm_response] returns. *)
Definition APOLOGY : string :=
  "I'm sorry, but I encountered an issue while trying to generate a response. Please try again later.".

(** [response.choices[0].message.content.strip()]: an empty list of
    choices raises [IndexError], a [None] content [AttributeError]. *)
Definition completion_text (response : ChatCompletion) : result string :=
  match getitem0 (choices response) with
  | Raise e => Raise e
  | Ok choice =>
      match message_content choice with
      | None => Raise AttributeError
      | Some text => Ok (strip text)
      end
  end.

Definition chat_messages (prompt : string) : list Message :=
  [SYSTEM_MESSAGE; {| role := "user"; content := prompt |}].

Definition _generate_llm_response (self : ChatbotService) (prompt : string)
  : M State string :=
  try_except
    (let! response :=
       extern (CallCreate OLLAMA_MODEL_NAME (chat_messages prompt) TEMPERATURE)
              (llm_client_create self OLLAMA_MODEL_NAME (chat_messages prompt)
                                 TEMPERATURE) in
     let! generated_text := lift (completion_text response) in
     ret generated_text)
    (fun e => ret APOLOGY).

Definition get_rag_response (self : ChatbotService) (query : string)
  : M State string :=
  let! query_embedding := _embed_query self query in
  let! (context_documents, context_metadatas, context_distances) :=
    _retrieve_context self query_embedding 3 in
  let prompt := _construct_prompt query context_documents in
  let! final_response := _generate_llm_response self prompt in
  ret final_response.

End Service.

Global Arguments QueryResult : clear implicits.
Global Arguments Call : clear implicits.
Global Arguments State : clear implicits.
Global Arguments ChatbotService : clear implicits.

End chatbot_service.

(* ================================================================== *)
(** * app/main.py *)
(* ================================================================== *)

Module main.

Import PyStr chatbot_service.

Record QueryRequest : Type := { query : string }.
Record ChatResponse : Type := { answer : string }.

Section Handler.

Context {W pyfloat : Type}.

(** Module level: [chatbot_service_instance = ChatbotService()] inside
    [try], and [None] in the [except Exception] branch.  [constructed] is
    the outcome of the constructor. *)
Definition chatbot_service_instance
    (constructed : result (ChatbotService W pyfloat))
  : option (ChatbotService W pyfloat) :=
  match constructed with
  | Ok service => Some service
  | Raise _ => None
  end.

Definition handle_chat_query
    (chatbot_service_instance : option (ChatbotService W pyfloat))
    (request : QueryRequest) : M (State W pyfloat) ChatResponse :=
  match chatbot_service_instance with
  | None =>
      raise (HTTPException 503
        "Chatbot service is currently unavailable. Please check server logs.")
  | Some service =>
      if is_empty (query request) || is_empty (strip (query request)) then
        raise (HTTPException 400 "Query cannot be empty.")
      else
        try_except
          (let! bot_answer := get_rag_response service (query request) in
           ret {| answer := bot_answer |})
          (fun e =>
             match e with
             | HTTPException _ _ => raise e
             | _ => raise (HTTPException 500 "An internal server error occurred.")
             end)
  end.

End Handler.

(** The status line FastAPI sends: 200 with the response model, the
    status of a raised [HTTPException], 500 for any other exception. *)
Definition http_status (r : result ChatResponse) : Z :=
  match r with
  | Ok _ => 200
  | Raise (HTTPException status_code _) => status_code
  | Raise _ => 500
  end.

End main.

(* ================================================================== *)
(** * scripts/build_knowledge_base.py *)
(* ================================================================== *)

Module build_knowledge_base.

Import PyStr Chroma.

(** One record of [faqs.json]. *)
Record FAQ : Type := { id : MetaValue; question : string; answer : string }.

Definition preprocess_faqs (faqs_data : list FAQ)
  : list string * list Metadata :=
  fold_left
    (fun '(documents, metadatas) faq =>
       let combined_text :=
         "Question: " +:+ question faq +:+ " Answer: " +:+ answer faq in
       (documents ++ [combined_text],
        metadatas ++ [ <["faq_id" := id faq]>
                         (<["original_answer" := MStr (answer faq)]>
                            (<["original_question" := MStr (question faq)]> ∅)) ]))
    faqs_data ([], []).

Definition CHROMA_DB_PATH : string := "app/knowledge_base/vector_store".
Definition COLLECTION_NAME : string := "faq_collection".

(** [[f"doc_{i}" for i in range(len(documents))]] *)
Definition doc_ids (documents : list string) : list string :=
  map (fun i => "doc_" +:+ str_of_nat i) (seq 0 (length documents)).

Section Store.

Context {pyfloat : Type}.

Definition store_in_chromadb (documents : list string)
    (embeddings : list (list pyfloat)) (metadatas : list Metadata)
    (db_path collection_name : string) : M (Disk pyfloat) bool :=
  try_except
    (let! present := os_path_exists db_path in
     (if negb present then os_makedirs db_path else ret tt) ;;
     let! persistent_client := PersistentClient db_path in
     try_except
       (delete_collection persistent_client collection_name)
       (fun _ => ret tt) ;;
     let! collection :=
       get_or_create_collection persistent_client collection_name in
     collection_add collection embeddings documents metadatas
                    (doc_ids documents) ;;
     ret true)
    (fun e => ret false).

End Store.

End build_knowledge_base.

(* ================================================================== *)
(** * Concrete services, requests and FAQ records *)
(* ================================================================== *)

Module Examples.

Import PyStr Chroma chatbot_service main build_knowledge_base.

(** A completion with one choice. *)
Definition reply (text : string) : ChatCompletion :=
  {| choices := [ {| message_content := Some text |} ] |}.

(** A query result with one row of documents. *)
Definition hits (docs : list string) : QueryResult Z :=
  {| documents := Rows [docs];
     metadatas := Rows [map (fun _ => ∅) docs];
     distances := Rows [map (fun _ => 0%Z) docs] |}.

(** A service whose collaborators answer the same whatever they are
    asked, over a world without state. *)
Definition service (enc : result (list Z)) (qry : result (QueryResult Z))
    (llm : result ChatCompletion) : ChatbotService unit Z :=
  {| embedding_model_encode := fun _ w => (enc, w);
     collection_query := fun _ _ _ w => (qry, w);
     llm_client_create := fun _ _ _ w => (llm, w) |}.

Definition payment_doc : string :=
  "Question: What are my payment options? Answer: Credit card, bank transfer.".

Definition healthy : ChatbotService unit Z :=
  service (Ok [1; 2]%Z) (Ok (hits [payment_doc]))
          (Ok (reply "You can pay by credit card or bank transfer.")).

(** The model answers with blanks only. *)
Definition blank_llm : ChatbotService unit Z :=
  service (Ok [1; 2]%Z) (Ok (hits [payment_doc])) (Ok (reply "  ")).

Definition broken_encoder : ChatbotService unit Z :=
  service (Raise (OtherError "RuntimeError")) (Ok (hits [payment_doc]))
          (Ok (reply "unused")).

Definition broken_index : ChatbotService unit Z :=
  service (Ok [1; 2]%Z) (Raise ConnectionError) (Ok (reply "I do not know.")).

Definition broken_llm : ChatbotService unit Z :=
  service (Ok [1; 2]%Z) (Ok (hits [payment_doc])) (Raise TimeoutError).

Definition start : State unit Z := {| world := tt; calls := [] |}.

Definition payment_faq : FAQ :=
  {| id := MStr "1";
     question := "What are my payment options?";
     answer := "Credit card, bank transfer." |}.

Definition empty_disk : Disk Z :=
  {| directories := ∅; collections := ∅; client_calls := [];
     faults := no_faults |}.

End Examples.

(* ================================================================== *)
(** * app/chatbot_service.py: the constructor *)
(* ================================================================== *)

Module startup.

Import PyStr chatbot_service.

Definition EMBEDDING_MODEL_NAME : string := "all-MiniLM-L6-v2".
Definition CHROMA_DB_PATH : string := "app/knowledge_base/vector_store".

(** [os.getenv(key, default)], on the environment as [load_dotenv()]
    left it. *)
Definition os_getenv (env : gmap string string) (key dflt : string) : string :=
  default dflt (env !! key).

Definition OLLAMA_BASE_URL (env : gmap string string) : string :=
  os_getenv env "OLLAMA_BASE_URL" "http://localhost:11434/v1".

Definition OLLAMA_API_KEY (env : gmap string string) : string :=
  os_getenv env "OLLAMA_API_KEY" "ollama".

Section Init.

Context {W pyfloat Client : Type}.

(** What [__init__] asks of the libraries, in the order of the source. *)
Inductive InitCall : Type :=
| NewSentenceTransformer (model_name : string)
| NewPersistentClient (path : string)
| GetCollection (name : string)
| CollectionCount
| NewOpenAI (base_url api_key : string).

Record InitState : Type := { iworld : W; icalls : list InitCall }.

Definition construct {A} (c : InitCall) (op : W -> result A * W)
  : M InitState A :=
  fun st =>
    let (r, w') := op (iworld st) in
    (r, {| iworld := w'; icalls := icalls st ++ [c] |}).

(** A collection as [get_collection] returns it: its [query] and its
    [count]. *)
Record CollectionHandle : Type := {
  handle_query :
    list (list pyfloat) -> Z -> list string -> W
    -> result (QueryResult pyfloat) * W;
  handle_count : W -> result Z * W
}.

(** The constructors of the three libraries; each returns the handle
    the service keeps, or raises. *)
Record Libraries : Type := {
  lib_SentenceTransformer :
    string -> W -> result (string -> W -> result (list pyfloat) * W) * W;
  lib_PersistentClient : string -> W -> result Client * W;
  lib_get_collection : Client -> string -> W -> result CollectionHandle * W;
  lib_OpenAI :
    string -> string -> W
    -> result (string -> list Message -> Q -> W -> result ChatCompletion * W)
       * W
}.

(** [ChatbotService.__init__]: the [except] branch prints and raises
    the exception again. *)
Definition ChatbotService__init__ (libs : Libraries) (env : gmap string string)
  : M InitState (ChatbotService W pyfloat) :=
  try_except
    (let! embedding_model :=
       construct (NewSentenceTransformer EMBEDDING_MODEL_NAME)
                 (lib_SentenceTransformer libs EMBEDDING_MODEL_NAME) in
     let! chroma_client :=
       construct (NewPersistentClient CHROMA_DB_PATH)
                 (lib_PersistentClient libs CHROMA_DB_PATH) in
     let! collection :=
       construct (GetCollection COLLECTION_NAME)
                 (lib_get_collection libs chroma_client COLLECTION_NAME) in
     let! count := construct CollectionCount (handle_count collection) in
     let! llm_client :=
       construct (NewOpenAI (OLLAMA_BASE_URL env) (OLLAMA_API_KEY env))
                 (lib_OpenAI libs (OLLAMA_BASE_URL env) (OLLAMA_API_KEY env)) in
     ret {| embedding_model_encode := embedding_model;
            collection_query := handle_query collection;
            llm_client_create := llm_client |})
    (fun e => raise e).


End Init.

Global Arguments InitState : clear implicits.
Global Arguments CollectionHandle : clear implicits.
Global Arguments Libraries : clear implicits.

End startup.

(* ================================================================== *)
(** * scripts/build_knowledge_base.py: loading, embedding and the script *)
(* ================================================================== *)

Module build_script.

Import PyStr Chroma build_knowledge_base.

Definition FAQ_PATH : string := "app/knowledge_base/faqs.json".
Definition MODEL_NAME : string := "all-MiniLM-L6-v2".

Section Script.

Context {W pyfloat : Type}.

(** What the script takes from outside: [read_json path] is
    [json.load] on the opened file, [encode_documents name docs] is
    [SentenceTransformer(name).encode(docs)]; both may raise. *)
Record Tools : Type := {
  read_json : string -> W -> result (list FAQ) * W;
  encode_documents :
    string -> list string -> W -> result (list (list pyfloat)) * W
}.

Record BuildState : Type := { bworld : W; bdisk : Disk pyfloat }.

Definition external {A} (op : W -> result A * W) : M BuildState A :=
  fun st =>
    let (r, w') := op (bworld st) in
    (r, {| bworld := w'; bdisk := bdisk st |}).

Definition on_disk {A} (m : M (Disk pyfloat) A) : M BuildState A :=
  fun st =>
    let (r, d') := m (bdisk st) in
    (r, {| bworld := bworld st; bdisk := d' |}).

(** [load_faqs]: the three [except] clauses ([FileNotFoundError],
    [json.JSONDecodeError], [Exception]) differ in the message they
    print; each returns the empty list. *)
Definition load_faqs (tools : Tools) (file_path : string)
  : M BuildState (list FAQ) :=
  try_except
    (let! faqs := external (read_json tools file_path) in
     ret faqs)
    (fun e => ret []).

(** [generate_embeddings]: [None] in the [except] branch. *)
Definition generate_embeddings (tools : Tools) (documents : list string)
    (model_name : string) : M BuildState (option (list (list pyfloat))) :=
  try_except
    (let! embeddings :=
       external (encode_documents tools model_name documents) in
     ret (Some embeddings))
    (fun e => ret None).

(** The message the last [__main__] block ends with. *)
Inductive Outcome : Type :=
| Completed
| StorageFailed
| EmbeddingFailed
| NoDocuments
| NoFaqs.

(** The last [if __name__ == "__main__":] block, the one that stores.
    The two blocks before it load and embed as well and store
    nothing. *)
Definition main (tools : Tools) : M BuildState Outcome :=
  let! faqs_data := load_faqs tools FAQ_PATH in
  match faqs_data with
  | [] => ret NoFaqs
  | _ :: _ =>
      let documents_to_embed := (preprocess_faqs faqs_data).1 in
      let metadatas_for_store := (preprocess_faqs faqs_data).2 in
      match documents_to_embed with
      | [] => ret NoDocuments
      | _ :: _ =>
          let! embeddings_data :=
            generate_embeddings tools documents_to_embed MODEL_NAME in
          match embeddings_data with
          | Some embeddings =>
              let! success :=
                on_disk (store_in_chromadb documents_to_embed embeddings
                           metadatas_for_store CHROMA_DB_PATH COLLECTION_NAME) in
              if success then ret Completed else ret StorageFailed
          | None => ret EmbeddingFailed
          end
      end
  end.

End Script.

Global Arguments Tools : clear implicits.
Global Arguments BuildState : clear implicits.

End build_script.

(* ================================================================== *)
(** * streamlit_app.py *)
(* ================================================================== *)

(** One run of the script: the history is [st.session_state.messages],
    the input is what [st.chat_input] returned.  The calls that only
    draw ([st.chat_message], [st.markdown], [st.error], [st.spinner]) are
    left out. *)
Module streamlit_app.

Definition FASTAPI_BACKEND_URL : string := "http://127.0.0.1:8000/chat/".

(** A message [{"role": ..., "content": ...}] of the history. *)
Record ChatMessage : Type := { msg_role : string; msg_content : string }.

(** What the [try] block can raise, with the text [str(e)] gives: an
    exception of [requests.exceptions.RequestException], or another
    [Exception]. *)
Inductive ui_exn : Type :=
| RequestException (text : string)
| OtherException (text : string).

Inductive ui_result (A : Type) : Type :=
| Fine (a : A)
| Failed (e : ui_exn).
Global Arguments Fine {A} a.
Global Arguments Failed {A} e.

(** The response of [requests.post]: the status, the text of the
    [HTTPError] that [raise_for_status()] raises for it, and what
    [json()] gives, an object with string values or an exception. *)
Record Response : Type := {
  status_code : Z;
  http_error_text : string;
  json : ui_result (gmap string string)
}.

(** [response.raise_for_status()]: an [HTTPError], which is a
    [RequestException], for a status from 400 to 599. *)
Definition raise_for_status (response : Response) : ui_result unit :=
  if ((400 <=? status_code response) && (status_code response <? 600))%Z
  then Failed (RequestException (http_error_text response))
  else Fine tt.

Section Run.

Context {W : Type}.

(** The body of the [try] block: the answer to show. *)
Definition ask (post : string -> string -> W -> ui_result Response * W)
    (user_query : string) (w : W) : ui_result string * W :=
  match post FASTAPI_BACKEND_URL user_query w with
  | (Failed e, w') => (Failed e, w')
  | (Fine response, w') =>
      match raise_for_status response with
      | Failed e => (Failed e, w')
      | Fine _ =>
          match json response with
          | Failed e => (Failed e, w')
          | Fine response_data =>
              (Fine (default "Sorry, I couldn't get a proper answer."
                             (response_data !! "answer")), w')
          end
      end
  end.

(** One run of the script on the history [messages]. *)
Definition run (post : string -> string -> W -> ui_result Response * W)
    (messages : list ChatMessage) (user_query : option string) (w : W)
  : list ChatMessage * W :=
  match user_query with
  | None => (messages, w)
  | Some EmptyString => (messages, w)
  | Some q =>
      let messages := messages ++ [ {| msg_role := "user"; msg_content := q |} ] in
      match ask post q w with
      | (Fine bot_answer, w') =>
          (messages ++ [ {| msg_role := "assistant";
                            msg_content := bot_answer |} ], w')
      | (Failed (RequestException text), w') =>
          (messages ++ [ {| msg_role := "assistant";
                            msg_content :=
                              "Error connecting to the chatbot API: " +:+ text |} ],
           w')
      | (Failed (OtherException text), w') =>
          (messages ++ [ {| msg_role := "assistant";
                            msg_content :=
                              "An unexpected error occurred: " +:+ text |} ],
           w')
      end
  end.

End Run.

End streamlit_app.

(* ================================================================== *)
(** * More concrete instances *)
(* ================================================================== *)

Module Examples2.

Import PyStr Chroma chatbot_service main build_knowledge_base Examples.
Import startup build_script streamlit_app.

(** A collection whose [distances] cannot be read. *)
Definition no_distances : QueryResult Z :=
  {| documents := Rows [[payment_doc]];
     metadatas := Rows [[∅]];
     distances := IsNone |}.

Definition half_broken_index : ChatbotService unit Z :=
  service (Ok [1; 2]%Z) (Ok no_distances) (Ok (reply "I do not know.")).

(** Libraries of which the collection is missing. *)
Definition libs_without_collection : Libraries unit Z unit :=
  {| lib_SentenceTransformer :=
       fun _ w => (Ok (embedding_model_encode healthy), w);
     lib_PersistentClient := fun _ w => (Ok tt, w);
     lib_get_collection :=
       fun _ _ w => (Raise (ValueError "Collection does not exist."), w);
     lib_OpenAI := fun _ _ w => (Ok (llm_client_create healthy), w) |}.

Definition init_start : InitState unit :=
  {| iworld := tt; icalls := [] |}.

(** Tools that load one FAQ and embed every document as [[1; 2]]. *)
Definition good_tools : Tools unit Z :=
  {| read_json := fun _ w => (Ok [payment_faq], w);
     encode_documents := fun _ docs w => (Ok (map (fun _ => [1; 2]%Z) docs), w) |}.

(** Tools whose embedding model cannot be loaded. *)
Definition tools_without_model : Tools unit Z :=
  {| read_json := fun _ w => (Ok [payment_faq], w);
     encode_documents := fun _ _ w => (Raise (OtherError "OSError"), w) |}.

(** Tools that return one embedding too few. *)
Definition short_tools : Tools unit Z :=
  {| read_json := fun _ w => (Ok [payment_faq], w);
     encode_documents := fun _ _ w => (Ok [], w) |}.

Definition old_item : Item Z :=
  {| item_id := "doc_0"; item_embedding := [9; 9]%Z;
     item_document := "old text";
     item_metadata := {[ "faq_id" := MStr "old" ]} |}.

(** A disk that holds an earlier build. *)
Definition used_disk : Disk Z :=
  {| directories := {[build_knowledge_base.CHROMA_DB_PATH]};
     collections :=
       {[ (build_knowledge_base.CHROMA_DB_PATH,
           build_knowledge_base.COLLECTION_NAME) := [old_item] ]};
     client_calls := [];
     faults := no_faults |}.

(** A second record. *)
Definition delivery_faq : FAQ :=
  {| id := MInt 2;
     question := "How long does delivery take?";
     answer := "Three to five working days." |}.

Definition two_faqs : list FAQ := [payment_faq; delivery_faq].

Definition two_embeddings : list (list Z) := [[1; 2]; [3; 4]]%Z.


(** A database that holds the collection of an earlier build. *)
Definition built_disk : Disk Z :=
  {| directories := {[build_knowledge_base.CHROMA_DB_PATH]};
     collections :=
       {[ (build_knowledge_base.CHROMA_DB_PATH,
           build_knowledge_base.COLLECTION_NAME) :=
            [ old_item;
              {| item_id := "doc_7"; item_embedding := [8; 8]%Z;
                 item_document := "older text";
                 item_metadata := {[ "faq_id" := MStr "older" ]} |} ] ]};
     client_calls := [];
     faults := no_faults |}.

(** The same database when the delete call is refused. *)
Definition undeletable_disk : Disk Z :=
  {| directories := directories built_disk;
     collections := collections built_disk;
     client_calls := [];
     faults :=
       {| fails_makedirs := fun _ => None;
          fails_client := fun _ => None;
          fails_call :=
            fun c =>
              match c with
              | DeleteCollection _ => Some (OtherError "InternalError")
              | _ => None
              end |} |}.

(** A database directory that cannot be made. *)
Definition unwritable_disk : Disk Z :=
  {| directories := ∅;
     collections := ∅;
     client_calls := [];
     faults :=
       {| fails_makedirs := fun _ => Some (OtherError "NotADirectoryError");
          fails_client := fun _ => Some (OtherError "NotADirectoryError");
          fails_call := fun _ => None |} |}.

Definition build_start (d : Disk Z) : BuildState unit Z :=
  {| bworld := tt; bdisk := d |}.

(** A backend that rejects with status 400. *)
Definition rejecting_post : string -> string -> unit -> ui_result Response * unit :=
  fun _ _ w =>
    (Fine {| status_code := 400;
             http_error_text := "400 Client Error: Bad Request";
             json := Fine {[ "answer" := "hidden" ]} |}, w).

End Examples2.

(* ================================================================== *)
(** * Facts about Python strings *)
(* ================================================================== *)

Module PyStr_facts.

Import PyStr.

Lemma str_app_nil_l (s : string) : "" +:+ s = s.
Proof. reflexivity. Qed.

Lemma str_app_cons (c : ascii) (s t : string) :
  String c s +:+ t = String c (s +:+ t).
Proof. reflexivity. Qed.

Lemma str_app_nil_r (s : string) : s +:+ "" = s.
Proof. induction s as [|c s IH]; [reflexivity|]. by rewrite str_app_cons, IH. Qed.

Lemma str_app_assoc (s t u : string) : (s +:+ t) +:+ u = s +:+ (t +:+ u).
Proof.
  induction s as [|c s IH]; [reflexivity|].
  by rewrite !str_app_cons, IH.
Qed.

Lemma startswith_app (p b : string) : startswith p (p +:+ b) = true.
Proof.
  induction p as [|c p IH]; [by destruct b|].
  rewrite str_app_cons. simpl. by rewrite decide_True.
Qed.

Lemma startswith_inv (p t : string) :
  startswith p t = true -> exists b, t = p +:+ b.
Proof.
  revert t. induction p as [|c p IH]; intros t H.
  - by exists t.
  - destruct t as [|c' t]; [done|]. simpl in H.
    destruct (decide (c = c')) as [->|]; [|done].
    destruct (IH _ H) as [b ->]. by exists b.
Qed.

Lemma is_in_here (s b : string) : is_in s (s +:+ b) = true.
Proof.
  destruct (s +:+ b) eqn:E; simpl; rewrite <- E, startswith_app; done.
Qed.

Lemma is_in_cons (s t : string) (c : ascii) :
  is_in s t = true -> is_in s (String c t) = true.
Proof. intros H. simpl. rewrite H. apply orb_true_r. Qed.

Lemma is_in_app_r (s a t : string) :
  is_in s t = true -> is_in s (a +:+ t) = true.
Proof.
  intros H. induction a as [|c a IH]; [done|].
  rewrite str_app_cons. by apply is_in_cons.
Qed.

(** [s in t] holds exactly when [t] is some text, then [s], then some
    text. *)
Lemma is_in_spec (s t : string) :
  is_in s t = true <-> exists a b, t = a +:+ s +:+ b.
Proof.
  split.
  - induction t as [|c t IH]; simpl; intros H.
    + rewrite orb_false_r in H. destruct (startswith_inv _ _ H) as [b ->].
      by exists "", b.
    + apply orb_true_iff in H as [H|H].
      * destruct (startswith_inv _ _ H) as [b ->]. by exists "", b.
      * destruct (IH H) as (a & b & ->). by exists (String c a), b.
  - intros (a & b & ->). apply is_in_app_r, is_in_here.
Qed.

Lemma is_in_refl (s : string) : is_in s s = true.
Proof. rewrite <- (str_app_nil_r s) at 2. apply is_in_here. Qed.


(** A string that strips to nothing: the empty string does. *)
Lemma strip_empty : strip "" = "".
Proof. reflexivity. Qed.

Lemma is_empty_true (s : string) : is_empty s = true <-> s = "".
Proof. by destruct s. Qed.

Lemma join_cons (sep x : string) (l : list string) :
  join sep (x :: l) = x +:+ then_each sep l.
Proof.
  revert x. induction l as [|y l IH]; intros x.
  - simpl. by rewrite str_app_nil_r.
  - change (join sep (x :: y :: l)) with (x +:+ sep +:+ join sep (y :: l)).
    by rewrite IH.
Qed.

(** The layout of [sep.join(l)] around one of its elements: before it
    every earlier element followed by [sep], after it every later
    element preceded by [sep]. *)
Lemma join_split (sep d : string) (l1 l2 : list string) :
  join sep (l1 ++ d :: l2) = each_then sep l1 +:+ d +:+ then_each sep l2.
Proof.
  induction l1 as [|x l1 IH].
  - apply join_cons.
  - change ((x :: l1) ++ d :: l2) with (x :: (l1 ++ d :: l2)).
    rewrite join_cons. destruct l1 as [|y l1].
    + simpl. by rewrite !str_app_assoc.
    + change ((y :: l1) ++ d :: l2) with (y :: (l1 ++ d :: l2)) in *.
      rewrite join_cons in IH. simpl then_each. rewrite IH.
      simpl each_then. by rewrite !str_app_assoc.
Qed.

End PyStr_facts.

(* ================================================================== *)
(** * The prompt *)
(* ================================================================== *)

Module prompt_facts.

Import PyStr PyStr_facts chatbot_service.

Lemma prompt_template_parts (context_str query : string) :
  prompt_template context_str query
  = PROMPT_HEAD +:+ context_str +:+ PROMPT_MIDDLE +:+ query +:+ PROMPT_TAIL.
Proof. reflexivity. Qed.

Lemma prompt_head_grounding :
  exists a b, PROMPT_HEAD = a +:+ GROUNDING_INSTRUCTION +:+ b.
Proof.
  exists "You are an empathetic and helpful AI assistant. ".
  eexists. unfold PROMPT_HEAD. reflexivity.
Qed.

Lemma prompt_middle_question :
  exists m, PROMPT_MIDDLE = m +:+ "User's Question: ".
Proof. eexists (LF +:+ "---" +:+ LF +:+ LF). reflexivity. Qed.

Lemma prompt_tail_newline : exists t, PROMPT_TAIL = LF +:+ t.
Proof. eexists. unfold PROMPT_TAIL. reflexivity. Qed.

(** Containment in a text of three and of five pieces. *)
Lemma is_in_mid (a s b : string) : is_in s (a +:+ s +:+ b) = true.
Proof. apply is_in_app_r, is_in_here. Qed.

Lemma is_in_head_piece (a s b rest : string) :
  is_in s ((a +:+ s +:+ b) +:+ rest) = true.
Proof. rewrite !str_app_assoc. apply is_in_mid. Qed.

Lemma is_in_question (h c m u q l t : string) :
  is_in (u +:+ q +:+ l) (h +:+ c +:+ (m +:+ u) +:+ q +:+ l +:+ t) = true.
Proof.
  replace (h +:+ c +:+ (m +:+ u) +:+ q +:+ l +:+ t)
    with ((h +:+ c +:+ m) +:+ (u +:+ q +:+ l) +:+ t)
    by (by rewrite !str_app_assoc).
  apply is_in_mid.
Qed.

(** C2. Whatever the query and the documents, the prompt contains the
    instruction to answer from the supplied context only and to say so
    when the context does not hold the answer, and it contains the query
    as the user wrote it. *)
Theorem construct_prompt_grounded (query : string) (docs : list string) :
  is_in GROUNDING_INSTRUCTION (_construct_prompt query docs) = true
  /\ is_in query (_construct_prompt query docs) = true
  /\ is_in ("User's Question: " +:+ query +:+ LF)
           (_construct_prompt query docs) = true.
Proof.
  unfold _construct_prompt. cbv zeta.
  generalize (match docs with
              | [] => NO_CONTEXT_SENTENCE
              | _ :: _ => join (LF +:+ LF) docs
              end).
  intros context_str. rewrite prompt_template_parts.
  split; [|split].
  - destruct prompt_head_grounding as (a & b & ->). apply is_in_head_piece.
  - do 3 apply is_in_app_r. apply is_in_here.
  - destruct prompt_middle_question as (m & ->).
    destruct prompt_tail_newline as (t & ->).
    apply is_in_question.
Qed.

(** C3. With an empty document list the prompt is the fixed text of the
    template around the sentence that nothing was found and around the
    query: the sentence is there, and no other text is. *)
Theorem construct_prompt_no_documents (query : string) :
  is_in NO_CONTEXT_SENTENCE (_construct_prompt query []) = true
  /\ _construct_prompt query []
     = PROMPT_HEAD +:+ NO_CONTEXT_SENTENCE +:+ PROMPT_MIDDLE +:+ query
         +:+ PROMPT_TAIL.
Proof.
  split; [|apply prompt_template_parts].
  unfold _construct_prompt. cbv zeta. rewrite prompt_template_parts.
  apply is_in_mid.
Qed.

(** ** The documents inside the prompt *)

Lemma then_each_app (sep : string) (l1 l2 : list string) :
  then_each sep (l1 ++ l2) = then_each sep l1 +:+ then_each sep l2.
Proof.
  induction l1 as [|x l1 IH]; [reflexivity|].
  simpl. by rewrite IH, !str_app_assoc.
Qed.

(** Around the element at position [i], a joined list holds the earlier
    elements, each followed by the separator, and the later ones, each
    preceded by it. *)
Lemma join_at (sep : string) (l : list string) (i : nat) (d : string) :
  l !! i = Some d ->
  join sep l
  = each_then sep (take i l) +:+ d +:+ then_each sep (drop (S i) l).
Proof.
  intros Hi. rewrite <- (take_drop_middle _ _ _ Hi) at 1. apply join_split.
Qed.

Lemma construct_prompt_nonempty (query : string) (docs : list string) :
  docs <> [] ->
  _construct_prompt query docs
  = PROMPT_HEAD +:+ join (LF +:+ LF) docs +:+ PROMPT_MIDDLE +:+ query
      +:+ PROMPT_TAIL.
Proof. intros H. destruct docs; [done|]. apply prompt_template_parts. Qed.

(** C8. For a non-empty document list the prompt contains every
    document; a document that comes earlier in the list stands earlier in
    the prompt; two neighbours of the list stand in the prompt with
    exactly a blank line between them; and the context section of the
    prompt is the documents joined by blank lines. *)
Theorem construct_prompt_documents (query : string) (docs : list string) :
  docs <> [] ->
  (forall d, d ∈ docs -> is_in d (_construct_prompt query docs) = true)
  /\ (forall i j di dj, i < j ->
        docs !! i = Some di -> docs !! j = Some dj ->
        exists a b c,
          _construct_prompt query docs = a +:+ di +:+ b +:+ dj +:+ c)
  /\ (forall i di dj,
        docs !! i = Some di -> docs !! (S i) = Some dj ->
        exists a c,
          _construct_prompt query docs
          = a +:+ di +:+ (LF +:+ LF) +:+ dj +:+ c)
  /\ _construct_prompt query docs
     = PROMPT_HEAD +:+ join (LF +:+ LF) docs +:+ PROMPT_MIDDLE +:+ query
         +:+ PROMPT_TAIL.
Proof.
  intros Hne. rewrite (construct_prompt_nonempty _ _ Hne).
  generalize PROMPT_HEAD (PROMPT_MIDDLE +:+ query +:+ PROMPT_TAIL) (LF +:+ LF).
  intros h rest sep.
  split; [|split; [|split; [|done]]].
  - intros d [i Hi]%list_elem_of_lookup. rewrite (join_at _ _ _ _ Hi).
    apply is_in_spec.
    exists (h +:+ each_then sep (take i docs)),
      (then_each sep (drop (S i) docs) +:+ rest).
    by rewrite !str_app_assoc.
  - intros i j di dj Hij Hi Hj. rewrite (join_at _ _ _ _ Hi).
    assert (drop (S i) docs !! (j - S i) = Some dj) as Hj'.
    { rewrite lookup_drop. by replace (S i + (j - S i)) with j by lia. }
    assert (then_each sep (drop (S i) docs)
            = then_each sep (take (j - S i) (drop (S i) docs)) +:+ sep +:+ dj
                +:+ then_each sep (drop (S (j - S i)) (drop (S i) docs)))
      as ->.
    { rewrite <- (take_drop_middle _ _ _ Hj') at 1. by rewrite then_each_app. }
    exists (h +:+ each_then sep (take i docs)),
      (then_each sep (take (j - S i) (drop (S i) docs)) +:+ sep),
      (then_each sep (drop (S (j - S i)) (drop (S i) docs)) +:+ rest).
    by rewrite !str_app_assoc.
  - intros i di dj Hi Hj. rewrite (join_at _ _ _ _ Hi).
    rewrite (drop_S _ _ _ Hj). simpl then_each.
    exists (h +:+ each_then sep (take i docs)),
      (then_each sep (drop (S (S i)) docs) +:+ rest).
    by rewrite !str_app_assoc.
Qed.

Lemma construct_prompt_documents_witness :
  ["first"; "second"] <> []
  /\ (forall d, d ∈ ["first"; "second"] ->
        is_in d (_construct_prompt "q" ["first"; "second"]) = true)
  /\ (exists a c,
        _construct_prompt "q" ["first"; "second"]
        = a +:+ "first" +:+ (LF +:+ LF) +:+ "second" +:+ c).
Proof.
  assert (["first"; "second"] <> []) as Hne by done.
  destruct (construct_prompt_documents "q" ["first"; "second"] Hne)
    as (Hin & _ & Hsep & _).
  split; [exact Hne|]. split; [exact Hin|].
  apply (Hsep 0); reflexivity.
Defined.

End prompt_facts.

(* ================================================================== *)
(** * The query-to-answer pipeline *)
(* ================================================================== *)

Module chatbot_service_facts.

Import PyStr PyStr_facts chatbot_service.

Ltac run :=
  unfold get_rag_response, _embed_query, _retrieve_context,
    _generate_llm_response, extern, bind, try_except, ret, lift, raise;
  simpl.

Section Pipeline.

Context {W pyfloat : Type}.
Implicit Types (self : ChatbotService W pyfloat) (st : State W pyfloat).

(** ** Retrieval *)

(** [_retrieve_context] always returns, after exactly one query call. *)
Lemma retrieve_context_returns self emb k st :
  exists r st', _retrieve_context self emb k st = (Ok r, st')
    /\ calls st' = calls st ++ [CallQuery [emb] k INCLUDE].
Proof.
  run. destruct (collection_query self _ _ _ _) as [[res|e] w']; simpl.
  - destruct (get_first_row (documents res)); simpl; [|by eauto].
    destruct (get_first_row (metadatas res)); simpl; [|by eauto].
    destruct (get_first_row (distances res)); simpl; by eauto.
  - by eauto.
Qed.

(** C4. When the query operation of the collection raises, whatever the
    exception, the embedding and [n_results], [_retrieve_context] returns
    the three empty lists and does not raise. *)
Theorem retrieve_context_fail_soft self emb k st e w' :
  collection_query self [emb] k INCLUDE (world st) = (Raise e, w') ->
  _retrieve_context self emb k st
  = (Ok ([], [], []),
     {| world := w'; calls := calls st ++ [CallQuery [emb] k INCLUDE] |}).
Proof. intros H. run. by rewrite H. Qed.

(** ** Generation *)

(** [_generate_llm_response] always returns, after exactly one call of
    the client: the apology, or the stripped text of the completion the
    client gave. *)
Lemma generate_llm_response_returns self prompt st :
  exists ans st',
    _generate_llm_response self prompt st = (Ok ans, st')
    /\ calls st' = calls st ++ [CallCreate OLLAMA_MODEL_NAME (chat_messages prompt) TEMPERATURE]
    /\ (ans = APOLOGY
        \/ exists response w',
             llm_client_create self OLLAMA_MODEL_NAME (chat_messages prompt)
               TEMPERATURE (world st) = (Ok response, w')
             /\ completion_text response = Ok ans).
Proof.
  run. destruct (llm_client_create self _ _ _ _) as [[res|e] w'] eqn:E; simpl.
  - destruct (completion_text res) eqn:T; simpl; eauto 10.
  - eauto 10.
Qed.

(** C5. When the chat-completion call raises, whatever the exception and
    the prompt, [_generate_llm_response] returns the apology and does not
    raise. *)
Theorem generate_llm_response_fail_soft self prompt st e w' :
  llm_client_create self OLLAMA_MODEL_NAME (chat_messages prompt) TEMPERATURE
    (world st) = (Raise e, w') ->
  _generate_llm_response self prompt st
  = (Ok APOLOGY,
     {| world := w';
        calls := calls st ++ [CallCreate OLLAMA_MODEL_NAME
                                (chat_messages prompt) TEMPERATURE] |}).
Proof. intros H. run. by rewrite H. Qed.

(** The same holds for a completion that cannot be read: no choice, or a
    first choice without content. *)
Lemma generate_llm_response_malformed self prompt st response e w' :
  llm_client_create self OLLAMA_MODEL_NAME (chat_messages prompt) TEMPERATURE
    (world st) = (Ok response, w') ->
  completion_text response = Raise e ->
  fst (_generate_llm_response self prompt st) = Ok APOLOGY.
Proof. intros H T. run. rewrite H. simpl. by rewrite T. Qed.

(** ** The orchestrator *)

(** [_embed_query] is one encode call; its exception, if any, is not
    caught. *)
Lemma embed_query_run self query st :
  _embed_query self query st
  = (fst (embedding_model_encode self query (world st)),
     {| world := snd (embedding_model_encode self query (world st));
        calls := calls st ++ [CallEncode query] |}).
Proof.
  run. by destruct (embedding_model_encode self _ _) as [[?|?] ?].
Qed.

(** The orchestrator, stage by stage. *)
Lemma get_rag_response_unfold self query st :
  get_rag_response self query st
  = match _embed_query self query st with
    | (Raise e, st1) => (Raise e, st1)
    | (Ok emb, st1) =>
        match _retrieve_context self emb 3 st1 with
        | (Raise e, st2) => (Raise e, st2)
        | (Ok (docs, _, _), st2) =>
            _generate_llm_response self (_construct_prompt query docs) st2
        end
    end.
Proof.
  unfold get_rag_response, bind at 1.
  destruct (_embed_query self query st) as [[emb|e] st1]; [|done].
  unfold bind at 1.
  destruct (_retrieve_context self emb 3 st1) as [[[[docs ?] ?]|e] st2];
    [|done].
  unfold bind, ret.
  by destruct (_generate_llm_response self _ st2) as [[?|?] ?].
Qed.

(** C7. [get_rag_response] is the composition of the four stages: the
    answer is what [_generate_llm_response] gives for the prompt
    [_construct_prompt] builds from the query and the documents that
    [_retrieve_context] returns for the embedding of the query with
    [n_results = 3]; neither the metadatas nor the distances enter the
    prompt; and the call log grows by one encode call, one query call
    and one completion call, in this order, so no stage runs twice.
    Only a failing encode call ends the pipeline early. *)
Theorem get_rag_response_pipeline self query st :
  match _embed_query self query st with
  | (Raise e, st1) =>
      get_rag_response self query st = (Raise e, st1)
      /\ calls st1 = calls st ++ [CallEncode query]
  | (Ok emb, st1) =>
      exists docs metas dists st2,
        _retrieve_context self emb 3 st1 = (Ok (docs, metas, dists), st2)
        /\ get_rag_response self query st
           = _generate_llm_response self (_construct_prompt query docs) st2
        /\ calls (snd (get_rag_response self query st))
           = calls st ++ [CallEncode query;
                          CallQuery [emb] 3 INCLUDE;
                          CallCreate OLLAMA_MODEL_NAME
                            (chat_messages (_construct_prompt query docs))
                            TEMPERATURE]
  end.
Proof.
  rewrite get_rag_response_unfold.
  pose proof (embed_query_run self query st) as E.
  destruct (_embed_query self query st) as [[emb|e] st1];
    injection E as _ ->; simpl; [|done].
  destruct (retrieve_context_returns self emb 3
              {| world := snd (embedding_model_encode self query (world st));
                 calls := calls st ++ [CallEncode query] |})
    as ([[docs metas] dists] & st2 & R & L2).
  exists docs, metas, dists, st2. rewrite R. split; [done|]. split; [done|].
  destruct (generate_llm_response_returns self
              (_construct_prompt query docs) st2) as (ans & st3 & -> & L3 & _).
  simpl. rewrite L3, L2. simpl. by rewrite <- !(assoc_L (++)).
Qed.

(** C1, as the code has it. [get_rag_response] raises exactly when the
    encode call raises, and then with that exception.  Otherwise it
    returns a string, and which one is settled by the one completion
    call it makes, the call for the prompt built from the query and the
    documents that [_retrieve_context] returned for the embedding, in
    the world that retrieval left: the stripped content of the first
    choice of the completion, which is empty when that content is
    blank; and the apology, which is not empty, when the call raises,
    when the completion has no choice, or when the first choice has no
    content. *)
Theorem get_rag_response_outcome self query st :
  APOLOGY <> ""
  /\ match embedding_model_encode self query (world st) with
     | (Raise e, _) => fst (get_rag_response self query st) = Raise e
     | (Ok emb, w1) =>
         exists docs metas dists st2,
           _retrieve_context self emb 3
             {| world := w1; calls := calls st ++ [CallEncode query] |}
           = (Ok (docs, metas, dists), st2)
           /\ fst (get_rag_response self query st)
              = match llm_client_create self OLLAMA_MODEL_NAME
                        (chat_messages (_construct_prompt query docs))
                        TEMPERATURE (world st2) with
                | (Ok response, _) =>
                    match choices response with
                    | {| message_content := Some text |} :: _ =>
                        Ok (strip text)
                    | {| message_content := None |} :: _ => Ok APOLOGY
                    | [] => Ok APOLOGY
                    end
                | (Raise _, _) => Ok APOLOGY
                end
     end.
Proof.
  split; [done|].
  rewrite get_rag_response_unfold, embed_query_run.
  destruct (embedding_model_encode self query (world st)) as [[emb|e] w1];
    simpl; [|done].
  destruct (retrieve_context_returns self emb 3
              {| world := w1; calls := calls st ++ [CallEncode query] |})
    as ([[docs metas] dists] & st2 & R & _).
  exists docs, metas, dists, st2. split; [exact R|]. rewrite R.
  unfold _generate_llm_response, try_except, bind, extern, lift, ret,
    completion_text.
  destruct (llm_client_create self _ _ _ _) as [[response|e] w3]; [|done].
  by destruct (choices response) as [|[[text|]] rest].
Qed.

End Pipeline.

(** ** The theorems at concrete services *)

Import Examples.

Lemma retrieve_context_fail_soft_witness :
  _retrieve_context broken_index [1; 2]%Z 3 start
  = (Ok ([], [], []),
     {| world := tt; calls := [CallQuery [[1; 2]%Z] 3 INCLUDE] |}).
Proof.
  apply (retrieve_context_fail_soft broken_index [1; 2]%Z 3 start
           ConnectionError tt).
  reflexivity.
Defined.

Lemma generate_llm_response_fail_soft_witness :
  _generate_llm_response broken_llm "What are my payment options?" start
  = (Ok APOLOGY,
     {| world := tt;
        calls := [CallCreate OLLAMA_MODEL_NAME
                    (chat_messages "What are my payment options?")
                    TEMPERATURE] |}).
Proof.
  apply (generate_llm_response_fail_soft broken_llm
           "What are my payment options?" start TimeoutError tt).
  reflexivity.
Defined.

(** C1 as stated fails: with a model that answers in blanks the answer
    to a non-empty query is the empty string, and with an encoder that
    raises the call raises. *)
Lemma get_rag_response_may_be_empty_or_raise :
  "What are my payment options?" <> ""
  /\ fst (get_rag_response blank_llm "What are my payment options?" start)
     = Ok ""
  /\ fst (get_rag_response broken_encoder "What are my payment options?" start)
     = Raise (OtherError "RuntimeError").
Proof. split; [done|]. split; reflexivity. Qed.

(** The pipeline on the healthy service: the stored answer reaches the
    prompt, and the completion comes back stripped. *)
Example get_rag_response_healthy :
  fst (get_rag_response healthy "What are my payment options?" start)
  = Ok "You can pay by credit card or bank transfer."
  /\ calls (snd (get_rag_response healthy "What are my payment options?" start))
     = [CallEncode "What are my payment options?";
        CallQuery [[1; 2]%Z] 3 INCLUDE;
        CallCreate OLLAMA_MODEL_NAME
          (chat_messages
             (_construct_prompt "What are my payment options?" [payment_doc]))
          TEMPERATURE]
  /\ is_in "Credit card, bank transfer."
       (_construct_prompt "What are my payment options?" [payment_doc]) = true.
Proof. split; [|split]; reflexivity. Qed.

End chatbot_service_facts.

(* ================================================================== *)
(** * The HTTP handler *)
(* ================================================================== *)

Module main_facts.

Import PyStr PyStr_facts chatbot_service main.

Section Handler.

Context {W pyfloat : Type}.
Implicit Types (service : ChatbotService W pyfloat) (st : State W pyfloat)
  (request : QueryRequest).

(** The test [not request.query or not request.query.strip()] holds
    exactly when the query strips to the empty string. *)
Lemma empty_test_strip (q : string) :
  is_empty q || is_empty (strip q) = true <-> strip q = "".
Proof.
  rewrite orb_true_iff, !is_empty_true. split; [|by right].
  intros [->|H]; [reflexivity|done].
Qed.

(** C10. While the service could not be constructed the handler answers
    every request with status 503, before it looks at the query: an
    empty or blank query gets 503 as well, not 400, and no collaborator
    is called. *)
Theorem unavailable_before_validation (e : exn) request st :
  handle_chat_query (chatbot_service_instance (Raise e)) request st
  = (Raise (HTTPException 503
       "Chatbot service is currently unavailable. Please check server logs."),
     st)
  /\ http_status
       (fst (handle_chat_query (chatbot_service_instance (Raise e)) request st))
     = 503%Z.
Proof. by split. Qed.

(** C6, as the code has it. A query that is empty, or blank once
    stripped, never reaches the pipeline: the state, its call log
    included, is unchanged.  The request is answered with status 400 when
    the service is there and with 503 when it is not. *)
Theorem empty_query_rejected
    (instance : option (ChatbotService W pyfloat)) request st :
  query request = "" \/ strip (query request) = "" ->
  snd (handle_chat_query instance request st) = st
  /\ http_status (fst (handle_chat_query instance request st))
     = match instance with Some _ => 400%Z | None => 503%Z end
  /\ (forall service, instance = Some service ->
        fst (handle_chat_query instance request st)
        = Raise (HTTPException 400 "Query cannot be empty.")).
Proof.
  intros H.
  assert (is_empty (query request) || is_empty (strip (query request)) = true)
    as E.
  { apply empty_test_strip. destruct H as [->|H]; [reflexivity|done]. }
  destruct instance as [service|]; simpl; rewrite ?E; [|done].
  split; [done|]. split; [done|]. intros ? _. reflexivity.
Qed.

(** A query that does not strip to nothing goes to the pipeline: the
    answer comes back with status 200, an exception of the pipeline as
    status 500 unless it is an [HTTPException]. *)
Lemma handle_chat_query_answers service request st :
  strip (query request) <> "" ->
  handle_chat_query (Some service) request st
  = match get_rag_response service (query request) st with
    | (Ok bot_answer, st') => (Ok {| answer := bot_answer |}, st')
    | (Raise (HTTPException c d), st') => (Raise (HTTPException c d), st')
    | (Raise _, st') =>
        (Raise (HTTPException 500 "An internal server error occurred."), st')
    end.
Proof.
  intros H. simpl.
  destruct (is_empty (query request) || is_empty (strip (query request)))
    eqn:E; [by apply empty_test_strip in E|].
  unfold try_except, bind, ret, raise.
  destruct (get_rag_response service (query request) st) as [[a|e] st'];
    [done|by destruct e].
Qed.

End Handler.

Import Examples.

Lemma empty_query_rejected_witness :
  snd (handle_chat_query (Some healthy) {| query := "   " |} start) = start
  /\ http_status
       (fst (handle_chat_query (Some healthy) {| query := "   " |} start))
     = 400%Z.
Proof.
  destruct (empty_query_rejected (Some healthy) {| query := "   " |} start)
    as (Hst & Hcode & _); [right; reflexivity|].
  split; [exact Hst|exact Hcode].
Defined.

(** C6 as stated fails: while the service is missing the empty query is
    answered with 503, not with 400. *)
Lemma empty_query_unavailable_is_503 :
  strip (query {| query := "" |}) = ""
  /\ http_status
       (fst (handle_chat_query (@None (ChatbotService unit Z))
               {| query := "" |} start))
     = 503%Z
  /\ 503%Z <> 400%Z.
Proof. split; [reflexivity|]. split; [reflexivity|done]. Qed.

(** The model does not answer: the request still succeeds, with the
    apology as the answer. *)
Example handle_chat_query_llm_down :
  fst (handle_chat_query (Some broken_llm)
         {| query := "What are my payment options?" |} start)
  = Ok {| answer := APOLOGY |}.
Proof. reflexivity. Qed.

End main_facts.

(* ================================================================== *)
(** * The knowledge-base builder *)
(* ================================================================== *)

Module build_knowledge_base_facts.

Import PyStr PyStr_facts Chroma build_knowledge_base.

(** ** [preprocess_faqs] *)

Lemma preprocess_faqs_acc (faqs_data : list FAQ) (documents : list string)
    (metadatas : list Metadata) :
  fold_left
    (fun '(documents, metadatas) faq =>
       (documents ++ ["Question: " +:+ question faq +:+ " Answer: "
                        +:+ answer faq],
        metadatas ++ [ <["faq_id" := id faq]>
                         (<["original_answer" := MStr (answer faq)]>
                            (<["original_question" := MStr (question faq)]> ∅)) ]))
    faqs_data (documents, metadatas)
  = (documents
       ++ map (fun faq => "Question: " +:+ question faq +:+ " Answer: "
                            +:+ answer faq) faqs_data,
     metadatas
       ++ map (fun faq => <["faq_id" := id faq]>
                 (<["original_answer" := MStr (answer faq)]>
                    (<["original_question" := MStr (question faq)]> ∅)))
            faqs_data).
Proof.
  revert documents metadatas.
  induction faqs_data as [|faq faqs IH]; intros documents metadatas; simpl.
  - by rewrite !app_nil_r.
  - rewrite IH. by rewrite <- !(assoc_L (++)).
Qed.

Lemma preprocess_faqs_documents (faqs_data : list FAQ) :
  (preprocess_faqs faqs_data).1
  = map (fun faq => "Question: " +:+ question faq +:+ " Answer: "
                      +:+ answer faq) faqs_data.
Proof. unfold preprocess_faqs. by rewrite preprocess_faqs_acc. Qed.


(** ** [doc_ids] *)

Lemma doc_ids_length (documents : list string) :
  length (doc_ids documents) = length documents.
Proof. unfold doc_ids. by rewrite length_map, length_seq. Qed.

Lemma doc_ids_nil (documents : list string) :
  doc_ids documents = [] <-> documents = [].
Proof.
  split; [|by intros ->].
  intros H. apply (f_equal length) in H. rewrite doc_ids_length in H.
  by destruct documents.
Qed.


(** ** [store_in_chromadb] *)

Section Store.

Context {pyfloat : Type}.
Implicit Types (d : Disk pyfloat) (embeddings : list (list pyfloat)).

Lemma filter_fresh_nil (items : list (Item pyfloat)) :
  filter (fun it => item_id it ∉ map item_id (@nil (Item pyfloat))) items
  = items.
Proof.
  induction items as [|it items IH]; [done|].
  rewrite filter_cons_True; [by rewrite IH|]. simpl. apply not_elem_of_nil.
Qed.

Lemma bind_ok {S A B} (m : M S A) (k : A -> M S B) (st st' : S) (a : A) :
  m st = (Ok a, st') -> bind m k st = k a st'.
Proof. intros H. unfold bind. by rewrite H. Qed.

Lemma bind_raise {S A B} (m : M S A) (k : A -> M S B) (st st' : S) (e : exn) :
  m st = (Raise e, st') -> bind m k st = (Raise e, st').
Proof. intros H. unfold bind. by rewrite H. Qed.

(** Making the directory when it is missing: it raises only when the
    file system refuses, and leaves collections and call log alone. *)
Lemma makedirs_step (db_path : string) d :
  (exists e,
     (if negb (bool_decide (db_path ∈ directories d))
      then os_makedirs db_path else ret tt) d = (Raise e, d)
     /\ is_Some (fails_makedirs (faults d) db_path))
  \/ (exists d0,
        (if negb (bool_decide (db_path ∈ directories d))
         then os_makedirs db_path else ret tt) d = (Ok tt, d0)
        /\ collections d0 = collections d
        /\ client_calls d0 = client_calls d
        /\ faults d0 = faults d).
Proof.
  unfold os_makedirs, ret.
  case_bool_decide as Hin; simpl.
  - right. by eexists.
  - rewrite bool_decide_eq_false_2 by done.
    destruct (fails_makedirs (faults d) db_path) as [e|] eqn:F.
    + left. by eexists.
    + right. by eexists.
Qed.

(** Opening the client: it raises only when the library refuses, and
    otherwise the directory exists. *)
Lemma client_step (db_path : string) d :
  (exists e,
     PersistentClient db_path d = (Raise e, d)
     /\ is_Some (fails_client (faults d) db_path))
  \/ (exists d1,
        PersistentClient db_path d = (Ok db_path, d1)
        /\ collections d1 = collections d
        /\ client_calls d1 = client_calls d
        /\ faults d1 = faults d
        /\ db_path ∈ directories d1).
Proof.
  unfold PersistentClient.
  destruct (fails_client (faults d) db_path) as [e|] eqn:F.
  - left. by eexists.
  - right. eexists. repeat split. simpl. set_solver.
Qed.

(** The delete attempt never raises past its [except].  Afterwards the
    collection is gone when the call itself did not fail, whether the
    collection was there or not; when the call failed for a reason of
    its own, every collection is as it was. *)
Lemma delete_attempt (client name : string) d :
  exists d1,
    try_except (delete_collection client name) (fun _ => ret tt) d
    = (Ok tt, d1)
    /\ client_calls d1 = client_calls d ++ [DeleteCollection name]
    /\ faults d1 = faults d
    /\ directories d1 = directories d
    /\ (forall key, key <> (client, name) ->
          collections d1 !! key = collections d !! key)
    /\ (fails_call (faults d) (DeleteCollection name) = None ->
          collections d1 !! (client, name) = None)
    /\ (is_Some (fails_call (faults d) (DeleteCollection name)) ->
          collections d1 = collections d).
Proof.
  unfold try_except, delete_collection, ret. simpl.
  destruct (fails_call (faults d) (DeleteCollection name)) as [e|] eqn:F.
  { eexists. split; [reflexivity|]. simpl. repeat split. by intros. }
  destruct (collections d !! (client, name)) as [old|] eqn:E.
  - eexists. split; [reflexivity|]. simpl. repeat split.
    + intros key Hkey. by rewrite lookup_delete_ne.
    + intros _. by rewrite lookup_delete_eq.
    + intros H; by destruct H.
  - eexists. split; [reflexivity|]. simpl. repeat split.
    intros H; by destruct H.
Qed.

(** [get_or_create_collection] raises only when the library refuses;
    otherwise the collection is there, with what it held, or empty when
    it is new. *)
Lemma create_step (client name : string) d :
  (exists e d1,
     get_or_create_collection client name d = (Raise e, d1)
     /\ collections d1 = collections d
     /\ client_calls d1 = client_calls d ++ [GetOrCreateCollection name]
     /\ is_Some (fails_call (faults d) (GetOrCreateCollection name))
     /\ faults d1 = faults d)
  \/ (exists d1,
        get_or_create_collection client name d = (Ok (client, name), d1)
        /\ collections d1 !! (client, name)
           = Some (default [] (collections d !! (client, name)))
        /\ (forall key, key <> (client, name) ->
              collections d1 !! key = collections d !! key)
        /\ client_calls d1 = client_calls d ++ [GetOrCreateCollection name]
        /\ faults d1 = faults d
        /\ directories d1 = directories d).
Proof.
  unfold get_or_create_collection. simpl.
  destruct (fails_call (faults d) (GetOrCreateCollection name)) as [e|] eqn:F.
  { left. eexists _, _. split; [reflexivity|]. by simpl. }
  right.
  destruct (collections d !! (client, name)) as [old|] eqn:E.
  - eexists. split; [reflexivity|]. simpl. by rewrite E.
  - eexists. split; [reflexivity|]. simpl. rewrite lookup_insert_eq.
    repeat split. intros key Hkey. by rewrite lookup_insert_ne.
Qed.

(** [collection.add], outcome by outcome: when it returns, the ids were
    not empty, the four lists of one length, and the items whose ids
    the collection did not have stand at its end; when it raises, the
    collections are as they were. *)
Lemma collection_add_cases (handle : string * string) embeddings
    (documents : list string) (metadatas : list Metadata) (ids : list string)
    d (old : list (Item pyfloat)) :
  collections d !! handle = Some old ->
  exists r d',
    collection_add handle embeddings documents metadatas ids d = (r, d')
    /\ directories d' = directories d
    /\ faults d' = faults d
    /\ client_calls d'
       = client_calls d ++ [Add handle.2 embeddings documents metadatas ids]
    /\ match r with
       | Ok _ =>
           collections d'
           = <[handle :=
                 old ++ filter (fun it => item_id it ∉ map item_id old)
                          (make_items ids embeddings documents metadatas)]>
               (collections d)
           /\ ids <> []
           /\ length embeddings = length ids
           /\ length documents = length ids
           /\ length metadatas = length ids
       | Raise _ => collections d' = collections d
       end.
Proof.
  intros E. unfold collection_add. simpl. rewrite E.
  destruct (fails_call (faults d) _) as [e|] eqn:F;
    [by eexists _, _|].
  case_bool_decide as Hids; [by eexists _, _|].
  case_bool_decide as Hlen; simpl; [|by eexists _, _].
  destruct (bool_decide (NoDup ids)); simpl; [|by eexists _, _].
  destruct (forallb valid_embedding embeddings); simpl; [|by eexists _, _].
  destruct (same_dimension old embeddings); simpl; [|by eexists _, _].
  destruct (forallb valid_metadata metadatas); simpl; [|by eexists _, _].
  destruct Hlen as (? & ? & ?).
  eexists _, _. split; [reflexivity|]. by simpl.
Qed.

(** What [store_in_chromadb] does up to the [add] call does not depend
    on the texts.  Either it has stopped before, with [False], because
    the directory, the client or the collection could not be had; or
    it goes on to the [add], with the collection empty when the delete
    call did not fail, and as it was when it did. *)
Lemma store_prepares (db_path collection_name : string) d :
  (exists d0,
     (forall (documents : list string) embeddings (metadatas : list Metadata),
        store_in_chromadb documents embeddings metadatas db_path
          collection_name d = (Ok false, d0))
     /\ (forall key, key <> (db_path, collection_name) ->
           collections d0 !! key = collections d !! key)
     /\ (client_calls d0 = client_calls d
         \/ client_calls d0
            = client_calls d ++ [DeleteCollection collection_name;
                                 GetOrCreateCollection collection_name])
     /\ (is_Some (fails_makedirs (faults d) db_path)
         \/ is_Some (fails_client (faults d) db_path)
         \/ is_Some (fails_call (faults d)
                       (GetOrCreateCollection collection_name)))
     /\ faults d0 = faults d)
  \/ (exists d3 (old : list (Item pyfloat)),
        (forall (documents : list string) embeddings
                (metadatas : list Metadata),
           store_in_chromadb documents embeddings metadatas db_path
             collection_name d
           = match collection_add (db_path, collection_name) embeddings
                     documents metadatas (doc_ids documents) d3 with
             | (Ok _, d') => (Ok true, d')
             | (Raise _, d') => (Ok false, d')
             end)
        /\ collections d3 !! (db_path, collection_name) = Some old
        /\ (fails_call (faults d) (DeleteCollection collection_name) = None ->
              old = [])
        /\ (is_Some (fails_call (faults d) (DeleteCollection collection_name)) ->
              old = default [] (collections d !! (db_path, collection_name)))
        /\ (forall key, key <> (db_path, collection_name) ->
              collections d3 !! key = collections d !! key)
        /\ db_path ∈ directories d3
        /\ client_calls d3
           = client_calls d ++ [DeleteCollection collection_name;
                                GetOrCreateCollection collection_name]
        /\ faults d3 = faults d).
Proof.
  destruct (makedirs_step db_path d)
    as [(e & Hdir & Hf)|(d0 & Hdir & Hc0 & Hl0 & Hf0)].
  { left. exists d. split; [|by auto 6].
    intros documents embeddings metadatas.
    unfold store_in_chromadb, try_except at 1.
    rewrite (bind_ok (os_path_exists db_path) _ d d
               (bool_decide (db_path ∈ directories d))) by reflexivity.
    by rewrite (bind_raise _ _ _ _ _ Hdir). }
  destruct (client_step db_path d0)
    as [(e & Hopen & Hf)|(d1 & Hopen & Hc1 & Hl1 & Hf1 & Hin1)].
  { left. exists d0. split; [|rewrite Hc0, Hl0, <- Hf0; by auto 6].
    intros documents embeddings metadatas.
    unfold store_in_chromadb, try_except at 1.
    rewrite (bind_ok (os_path_exists db_path) _ d d
               (bool_decide (db_path ∈ directories d))) by reflexivity.
    rewrite (bind_ok _ _ _ _ _ Hdir).
    by rewrite (bind_raise _ _ _ _ _ Hopen). }
  destruct (delete_attempt db_path collection_name d1)
    as (d2 & Hdel & Hl2 & Hf2 & Hd2 & Hframe2 & Hgone & Hkept).
  destruct (create_step db_path collection_name d2)
    as [(e & d3 & Hnew & Hc3 & Hl3 & Hf & Hf3)
       |(d3 & Hnew & Hc3 & Hframe3 & Hl3 & Hf3 & Hd3)].
  { left. exists d3. split; [|split; [|split; [|split]]].
    - intros documents embeddings metadatas.
      unfold store_in_chromadb, try_except at 1.
      rewrite (bind_ok (os_path_exists db_path) _ d d
                 (bool_decide (db_path ∈ directories d))) by reflexivity.
      rewrite (bind_ok _ _ _ _ _ Hdir), (bind_ok _ _ _ _ _ Hopen).
      rewrite (bind_ok _ _ _ _ _ Hdel).
      by rewrite (bind_raise _ _ _ _ _ Hnew).
    - intros key Hkey. by rewrite Hc3, Hframe2, Hc1, Hc0.
    - right. rewrite Hl3, Hl2, Hl1, Hl0. by rewrite <- !(assoc_L (++)).
    - right. right. by rewrite <- Hf0, <- Hf1, <- Hf2.
    - by rewrite Hf3, Hf2, Hf1, Hf0. }
  right. exists d3, (default [] (collections d2 !! (db_path, collection_name))).
  split; [|split; [exact Hc3|repeat split]].
  - intros documents embeddings metadatas.
    unfold store_in_chromadb, try_except at 1.
    rewrite (bind_ok (os_path_exists db_path) _ d d
               (bool_decide (db_path ∈ directories d))) by reflexivity.
    rewrite (bind_ok _ _ _ _ _ Hdir), (bind_ok _ _ _ _ _ Hopen).
    rewrite (bind_ok _ _ _ _ _ Hdel), (bind_ok _ _ _ _ _ Hnew).
    unfold bind, ret.
    by destruct (collection_add _ _ _ _ _ d3) as [[[]|] ?].
  - intros F. rewrite Hgone; [done|]. by rewrite Hf1, Hf0.
  - intros F. rewrite Hkept; [by rewrite Hc1, Hc0|]. by rewrite Hf1, Hf0.
  - intros key Hkey. by rewrite Hframe3, Hframe2, Hc1, Hc0.
  - by rewrite Hd3, Hd2.
  - rewrite Hl3, Hl2, Hl1, Hl0. by rewrite <- !(assoc_L (++)).
  - by rewrite Hf3, Hf2, Hf1, Hf0.
Qed.

(** A run, from the outside: [store_in_chromadb] returns; its client
    calls are none, or the delete and the get-or-create, or these two
    and one add; and when it returns [True], the add was made, the
    lists were of one length and not empty, and the collection holds
    what it held at the add followed by the new items with new ids, which
    is nothing but all the new items when the delete call did not
    fail. *)
Lemma store_in_chromadb_run (documents : list string) embeddings
    (metadatas : list Metadata) (db_path collection_name : string) d :
  exists success d',
    store_in_chromadb documents embeddings metadatas db_path collection_name d
    = (Ok success, d')
    /\ faults d' = faults d
    /\ (client_calls d'
        = client_calls d
            ++ [DeleteCollection collection_name;
                GetOrCreateCollection collection_name;
                Add collection_name embeddings documents metadatas
                    (doc_ids documents)]
        \/ success = false
           /\ (client_calls d'
               = client_calls d
                   ++ [DeleteCollection collection_name;
                       GetOrCreateCollection collection_name]
               \/ client_calls d' = client_calls d))
    /\ (success = true ->
          db_path ∈ directories d'
          /\ client_calls d'
             = client_calls d
                 ++ [DeleteCollection collection_name;
                     GetOrCreateCollection collection_name;
                     Add collection_name embeddings documents metadatas
                         (doc_ids documents)]
          /\ documents <> []
          /\ length embeddings = length documents
          /\ length metadatas = length documents
          /\ (fails_call (faults d) (DeleteCollection collection_name) = None ->
                collections d' !! (db_path, collection_name)
                = Some (make_items (doc_ids documents) embeddings documents
                          metadatas))
          /\ (is_Some (fails_call (faults d)
                         (DeleteCollection collection_name)) ->
                collections d' !! (db_path, collection_name)
                = Some (default [] (collections d !! (db_path, collection_name))
                          ++ filter
                               (fun it =>
                                  item_id it
                                  ∉ map item_id
                                      (default []
                                         (collections d
                                            !! (db_path, collection_name))))
                               (make_items (doc_ids documents) embeddings
                                  documents metadatas)))).
Proof.
  destruct (store_prepares db_path collection_name d)
    as [(d0 & Hrun & _ & Hl0 & _ & Hf0)
       |(d3 & old & Hrun & Hc3 & Hnew & Hold & _ & Hdir & Hl3 & Hf3)].
  { exists false, d0. split; [apply Hrun|]. split; [exact Hf0|].
    split; [|done].
    right. split; [done|]. destruct Hl0; auto. }
  rewrite Hrun.
  destruct (collection_add_cases (db_path, collection_name) embeddings
              documents metadatas (doc_ids documents) d3 old Hc3)
    as (r & d4 & -> & Hd4 & Hf4 & Hl4 & Hr).
  assert (client_calls d4
          = client_calls d
              ++ [DeleteCollection collection_name;
                  GetOrCreateCollection collection_name;
                  Add collection_name embeddings documents metadatas
                      (doc_ids documents)]) as Hlog.
  { rewrite Hl4, Hl3. simpl. by rewrite <- !(assoc_L (++)). }
  destruct r as [[]|e].
  - exists true, d4. split; [done|]. split; [by rewrite Hf4|].
    split; [by left|]. intros _.
    destruct Hr as (Hc4 & Hids & He & Hdocs & Hm).
    rewrite doc_ids_length in He, Hm.
    split; [by rewrite Hd4|]. split; [exact Hlog|].
    split; [by intros ->|]. split; [exact He|]. split; [exact Hm|].
    split.
    + intros F. rewrite Hc4, lookup_insert_eq, (Hnew F). simpl.
      by rewrite filter_fresh_nil.
    + intros F. rewrite Hc4, lookup_insert_eq. by rewrite (Hold F).
  - exists false, d4. split; [done|]. split; [by rewrite Hf4|].
    split; [by left|]. done.
Qed.

Lemma make_items_length (ids : list string) embeddings
    (documents : list string) (metadatas : list Metadata) :
  length embeddings = length ids -> length documents = length ids ->
  length metadatas = length ids ->
  length (make_items ids embeddings documents metadatas) = length ids.
Proof.
  revert embeddings documents metadatas.
  induction ids as [|? ids IH]; intros [|? embs] [|? docs] [|? metas];
    simpl; try done.
  intros [= ?] [= ?] [= ?]. f_equal. by apply IH.
Qed.


End Store.

Import Examples Examples2.



(** When the delete call is refused, the build goes on with the old
    collection: the result is [True], the old items stay, and of the
    new ones only those are added whose id is new. *)
Lemma build_may_keep_old_items :
  fst (store_in_chromadb (preprocess_faqs two_faqs).1 two_embeddings
         (preprocess_faqs two_faqs).2 CHROMA_DB_PATH COLLECTION_NAME
         undeletable_disk)
  = Ok true
  /\ map item_document
       (default []
          (collections
             (snd (store_in_chromadb (preprocess_faqs two_faqs).1
                     two_embeddings (preprocess_faqs two_faqs).2
                     CHROMA_DB_PATH COLLECTION_NAME undeletable_disk))
             !! (CHROMA_DB_PATH, COLLECTION_NAME)))
     = ["old text"; "older text";
        "Question: How long does delivery take? Answer: Three to five working days."].
Proof. vm_compute. done. Qed.

End build_knowledge_base_facts.

(* ================================================================== *)
(** * More on the pipeline and the handler *)
(* ================================================================== *)

Module strip_facts.

Import PyStr.

Lemma lstrip_idem (s : string) : lstrip (lstrip s) = lstrip s.
Proof.
  induction s as [|c s IH]; [done|]. simpl.
  destruct (isspace c) eqn:E; [done|]. simpl. by rewrite E.
Qed.

Lemma rstrip_idem (s : string) : rstrip (rstrip s) = rstrip s.
Proof.
  induction s as [|c s IH]; [done|]. simpl.
  destruct (rstrip s) as [|c' r] eqn:R.
  - destruct (isspace c) eqn:E; [done|]. simpl. by rewrite E.
  - simpl in *. by rewrite IH.
Qed.

(** [rstrip] keeps a first character that is not white space. *)
Lemma lstrip_rstrip_fixed (s : string) :
  lstrip s = s -> lstrip (rstrip s) = rstrip s.
Proof.
  destruct s as [|c s]; [done|]. simpl.
  destruct (isspace c) eqn:E.
  - intros H. exfalso.
    assert (String.length (lstrip s) <= String.length s) as Hle.
    { clear. induction s as [|c s IH]; simpl; [lia|].
      destruct (isspace c); simpl; lia. }
    rewrite H in Hle. simpl in Hle. lia.
  - intros _. destruct (rstrip s); simpl; by rewrite E.
Qed.

Lemma strip_idem (s : string) : strip (strip s) = strip s.
Proof.
  unfold strip.
  rewrite (lstrip_rstrip_fixed (lstrip s)) by apply lstrip_idem.
  apply rstrip_idem.
Qed.

End strip_facts.

Module pipeline_more.

Import PyStr PyStr_facts strip_facts Chroma chatbot_service chatbot_service_facts.

Section Pipeline.

Context {W pyfloat : Type}.
Implicit Types (self : ChatbotService W pyfloat) (st : State W pyfloat).

(** X1. Retrieval is all or nothing: when the query returns but one of
    the three keys cannot be read, the documents are dropped with the
    rest. *)
Theorem retrieve_context_all_or_nothing self emb k st results w' e :
  collection_query self [emb] k INCLUDE (world st) = (Ok results, w') ->
  get_first_row (documents results) = Raise e
  \/ get_first_row (metadatas results) = Raise e
  \/ get_first_row (distances results) = Raise e ->
  fst (_retrieve_context self emb k st) = Ok ([], [], []).
Proof.
  intros Hq H. run. rewrite Hq. simpl.
  destruct (get_first_row (documents results)); simpl; [|done].
  destruct (get_first_row (metadatas results)); simpl; [|done].
  destruct (get_first_row (distances results)); simpl; [|done].
  by destruct H as [H|[H|H]].
Qed.

(** X2. Of a result only the first row of each key is used, whatever
    rows follow and however many entries the row has; a key that is
    absent counts as an empty row.  This holds for each of the three
    keys, the documents, the metadatas and the distances. *)
Theorem retrieve_context_first_rows self emb k st w'
    (results : QueryResult pyfloat) (docs : list string)
    (metas : list Metadata) (dists : list pyfloat) :
  collection_query self [emb] k INCLUDE (world st) = (Ok results, w') ->
  (documents results = Absent /\ docs = []
   \/ exists more, documents results = Rows (docs :: more)) ->
  (metadatas results = Absent /\ metas = []
   \/ exists more, metadatas results = Rows (metas :: more)) ->
  (distances results = Absent /\ dists = []
   \/ exists more, distances results = Rows (dists :: more)) ->
  _retrieve_context self emb k st
  = (Ok (docs, metas, dists),
     {| world := w'; calls := calls st ++ [CallQuery [emb] k INCLUDE] |}).
Proof.
  intros Hq Hdocs Hmetas Hdists. run. rewrite Hq. simpl.
  destruct Hdocs as [[-> ->]|[? ->]];
    destruct Hmetas as [[-> ->]|[? ->]];
    destruct Hdists as [[-> ->]|[? ->]]; reflexivity.
Qed.

(** X3. Of a completion only the first choice is read, and its content
    is stripped. *)
Theorem generate_llm_response_first_choice self prompt st w' text rest :
  llm_client_create self OLLAMA_MODEL_NAME (chat_messages prompt) TEMPERATURE
    (world st)
  = (Ok {| choices := {| message_content := Some text |} :: rest |}, w') ->
  fst (_generate_llm_response self prompt st) = Ok (strip text).
Proof. intros H. run. by rewrite H. Qed.

(** X4. Whatever the service does, what [get_rag_response] returns has
    no white space at either end. *)
Theorem get_rag_response_stripped self query st ans :
  fst (get_rag_response self query st) = Ok ans -> strip ans = ans.
Proof.
  rewrite get_rag_response_unfold, embed_query_run.
  destruct (embedding_model_encode self query (world st)) as [[emb|e] w1];
    simpl; [|done].
  match goal with
  | |- context [_retrieve_context self emb 3 ?s] =>
      destruct (retrieve_context_returns self emb 3 s)
        as ([[docs metas] dists] & st2 & -> & _)
  end.
  destruct (generate_llm_response_returns self
              (_construct_prompt query docs) st2)
    as (a & st3 & -> & _ & [->|(response & w' & _ & T)]); simpl.
  - by intros [= <-].
  - intros [= <-]. unfold completion_text in T.
    destruct (getitem0 (choices response)) as [c|]; [|done].
    destruct (message_content c) as [text|]; [|done].
    injection T as <-. apply strip_idem.
Qed.

End Pipeline.

Import Examples Examples2.

Lemma retrieve_context_all_or_nothing_witness :
  fst (_retrieve_context half_broken_index [1; 2]%Z 3 start) = Ok ([], [], []).
Proof.
  apply (retrieve_context_all_or_nothing half_broken_index [1; 2]%Z 3 start
           no_distances tt TypeError).
  - reflexivity.
  - right. right. reflexivity.
Defined.

Lemma retrieve_context_first_rows_witness :
  _retrieve_context
    (service (Ok [1]%Z)
       (Ok {| documents := Rows (["a"; "b"; "c"; "d"] :: [["e"]]);
              metadatas := Rows ([∅; ∅; ∅; ∅] :: [[∅]]);
              distances := Absent |})
       (Ok (reply "x")))
    [1]%Z 3 start
  = (Ok (["a"; "b"; "c"; "d"], [∅; ∅; ∅; ∅], []),
     {| world := tt; calls := [CallQuery [[1]%Z] 3 INCLUDE] |}).
Proof.
  apply (retrieve_context_first_rows _ [1]%Z 3 start tt
           {| documents := Rows (["a"; "b"; "c"; "d"] :: [["e"]]);
              metadatas := Rows ([∅; ∅; ∅; ∅] :: [[∅]]);
              distances := Absent |}
           ["a"; "b"; "c"; "d"] [∅; ∅; ∅; ∅] []).
  - reflexivity.
  - right. by exists [["e"]].
  - right. by exists [[∅]].
  - left. by split.
Defined.

Lemma generate_llm_response_first_choice_witness :
  fst (_generate_llm_response
         (service (Ok [1]%Z) (Ok (hits []))
            (Ok {| choices := [ {| message_content := Some "  yes  " |};
                                {| message_content := Some "no" |} ] |}))
         "p" start)
  = Ok (strip "  yes  ").
Proof.
  apply (generate_llm_response_first_choice _ "p" start tt "  yes  "
           [ {| message_content := Some "no" |} ]).
  reflexivity.
Defined.

Lemma get_rag_response_stripped_witness :
  strip "You can pay by credit card or bank transfer."
  = "You can pay by credit card or bank transfer.".
Proof.
  apply (get_rag_response_stripped healthy "What are my payment options?"
           start).
  reflexivity.
Defined.

End pipeline_more.

Module handler_more.

Import PyStr PyStr_facts Chroma chatbot_service chatbot_service_facts.
Import prompt_facts main main_facts.

Section Handler.

Context {W pyfloat : Type}.
Implicit Types (service : ChatbotService W pyfloat) (st : State W pyfloat)
  (request : QueryRequest).

(** X5. For a query that is not blank the status follows the encode
    call alone: 200 with the answer of the pipeline when it returns; 500
    with one fixed detail, whatever the exception was, when it raises;
    only an [HTTPException] passes through as it is. *)
Theorem handle_chat_query_status service request st :
  strip (query request) <> "" ->
  match embedding_model_encode service (query request) (world st) with
  | (Ok _, _) =>
      exists bot_answer,
        fst (get_rag_response service (query request) st) = Ok bot_answer
        /\ fst (handle_chat_query (Some service) request st)
           = Ok {| answer := bot_answer |}
  | (Raise (HTTPException c d), _) =>
      fst (handle_chat_query (Some service) request st)
      = Raise (HTTPException c d)
  | (Raise _, _) =>
      fst (handle_chat_query (Some service) request st)
      = Raise (HTTPException 500 "An internal server error occurred.")
  end.
Proof.
  intros Hq. rewrite (handle_chat_query_answers _ _ _ Hq).
  rewrite get_rag_response_unfold, embed_query_run.
  destruct (embedding_model_encode service (query request) (world st))
    as [[emb|e] w1]; simpl; [|by destruct e].
  match goal with
  | |- context [_retrieve_context service emb 3 ?s] =>
      destruct (retrieve_context_returns service emb 3 s)
        as ([[docs metas] dists] & st2 & -> & _)
  end.
  destruct (generate_llm_response_returns service
              (_construct_prompt (query request) docs) st2)
    as (a & st3 & -> & _). by exists a.
Qed.

Lemma no_documents_sentence (query : string) :
  is_in NO_CONTEXT_SENTENCE (_construct_prompt query []) = true.
Proof.
  unfold _construct_prompt. cbv zeta. rewrite prompt_template_parts.
  apply is_in_mid.
Qed.

(** X6. The index is down: the request still succeeds, each
    collaborator is called once, and the model is asked with the prompt
    for no documents, which carries the sentence that nothing was
    found. *)
Theorem handle_chat_query_index_down service request st emb w1 e w2 :
  strip (query request) <> "" ->
  embedding_model_encode service (query request) (world st) = (Ok emb, w1) ->
  collection_query service [emb] 3 INCLUDE w1 = (Raise e, w2) ->
  exists bot_answer st',
    handle_chat_query (Some service) request st
    = (Ok {| answer := bot_answer |}, st')
    /\ calls st'
       = calls st ++ [CallEncode (query request);
                      CallQuery [emb] 3 INCLUDE;
                      CallCreate OLLAMA_MODEL_NAME
                        (chat_messages (_construct_prompt (query request) []))
                        TEMPERATURE]
    /\ is_in NO_CONTEXT_SENTENCE (_construct_prompt (query request) []) = true.
Proof.
  intros Hq He Hidx.
  pose proof (no_documents_sentence (query request)) as Hin.
  rewrite (handle_chat_query_answers _ _ _ Hq).
  rewrite get_rag_response_unfold, embed_query_run, He. simpl.
  unfold _retrieve_context, try_except, bind at 1, extern. simpl.
  rewrite Hidx. simpl.
  match goal with
  | |- context [_generate_llm_response service ?p ?s] =>
      destruct (generate_llm_response_returns service p s)
        as (a & st3 & -> & L & _)
  end.
  exists a, st3. split; [done|]. split.
  - rewrite L. simpl. by rewrite <- !(assoc_L (++)).
  - exact Hin.
Qed.

(** X7. The model is down: a request with a query that is not blank and
    an encoder that works is answered with status 200 and the apology. *)
Theorem handle_chat_query_model_down service request st emb w1 :
  strip (query request) <> "" ->
  embedding_model_encode service (query request) (world st) = (Ok emb, w1) ->
  (forall messages w,
     exists e w',
       llm_client_create service OLLAMA_MODEL_NAME messages TEMPERATURE w
       = (Raise e, w')) ->
  fst (handle_chat_query (Some service) request st)
  = Ok {| answer := APOLOGY |}
  /\ http_status (fst (handle_chat_query (Some service) request st)) = 200%Z.
Proof.
  intros Hq He Hllm.
  assert (fst (handle_chat_query (Some service) request st)
          = Ok {| answer := APOLOGY |}) as ->; [|done].
  rewrite (handle_chat_query_answers _ _ _ Hq).
  rewrite get_rag_response_unfold, embed_query_run, He. simpl.
  match goal with
  | |- context [_retrieve_context service emb 3 ?s] =>
      destruct (retrieve_context_returns service emb 3 s)
        as ([[docs metas] dists] & st2 & -> & _)
  end.
  unfold _generate_llm_response, try_except, bind at 1, extern.
  destruct (Hllm (chat_messages (_construct_prompt (query request) docs))
              (world st2)) as (e & w' & ->).
  reflexivity.
Qed.

End Handler.

(** X8. The prompt does not mark where one document ends and the next
    begins: two documents give the prompt of the one document that is
    their texts with a blank line between. *)
Theorem construct_prompt_boundaries_lost (query a b : string) :
  _construct_prompt query [a; b]
  = _construct_prompt query [a +:+ LF +:+ LF +:+ b].
Proof.
  unfold _construct_prompt. cbv zeta. simpl join.
  by rewrite !str_app_assoc.
Qed.

(** X9. A single retrieved document that reads like the sentence for
    an empty context gives the very prompt of an empty retrieval, and a
    single empty document gives an empty context section, not that
    sentence. *)
Theorem construct_prompt_fallback_only_on_empty_list (query : string) :
  _construct_prompt query [NO_CONTEXT_SENTENCE] = _construct_prompt query []
  /\ _construct_prompt query [""]
     = PROMPT_HEAD +:+ PROMPT_MIDDLE +:+ query +:+ PROMPT_TAIL.
Proof. split; reflexivity. Qed.

Import Examples Examples2.

Lemma handle_chat_query_status_witness :
  fst (handle_chat_query (Some broken_encoder)
         {| query := "What are my payment options?" |} start)
  = Raise (HTTPException 500 "An internal server error occurred.").
Proof.
  apply (handle_chat_query_status broken_encoder
           {| query := "What are my payment options?" |} start).
  discriminate.
Defined.

Lemma handle_chat_query_index_down_witness :
  exists bot_answer st',
    handle_chat_query (Some broken_index)
      {| query := "What are my payment options?" |} start
    = (Ok {| answer := bot_answer |}, st')
    /\ calls st'
       = calls start ++ [CallEncode "What are my payment options?";
                         CallQuery [[1; 2]%Z] 3 INCLUDE;
                         CallCreate OLLAMA_MODEL_NAME
                           (chat_messages
                              (_construct_prompt
                                 "What are my payment options?" []))
                           TEMPERATURE]
    /\ is_in NO_CONTEXT_SENTENCE
         (_construct_prompt "What are my payment options?" []) = true.
Proof.
  apply (handle_chat_query_index_down broken_index
           {| query := "What are my payment options?" |} start
           [1; 2]%Z tt ConnectionError tt).
  - discriminate.
  - reflexivity.
  - reflexivity.
Defined.

Lemma handle_chat_query_model_down_witness :
  fst (handle_chat_query (Some broken_llm)
         {| query := "What are my payment options?" |} start)
  = Ok {| answer := APOLOGY |}
  /\ http_status
       (fst (handle_chat_query (Some broken_llm)
               {| query := "What are my payment options?" |} start))
     = 200%Z.
Proof.
  apply (handle_chat_query_model_down broken_llm
           {| query := "What are my payment options?" |} start [1; 2]%Z tt).
  - discriminate.
  - reflexivity.
  - intros messages w. exists TimeoutError, w. reflexivity.
Defined.

End handler_more.

(* ================================================================== *)
(** * Start-up *)
(* ================================================================== *)

Module startup_facts.

Import PyStr chatbot_service main startup.

Section Init.

Context {W pyfloat Client : Type}.
Implicit Types (libs : Libraries W pyfloat Client)
  (st : InitState W) (env : gmap string string).

Ltac init_run :=
  unfold ChatbotService__init__, try_except, bind, construct, ret, raise;
  simpl.


(** X11. A knowledge base that was never built: when [get_collection]
    raises, the constructor raises that exception, the client for the
    model is never constructed, the service handle of [main.py] is
    [None], and every request is answered with 503. *)
Theorem missing_collection_means_503 libs env st model w1 client w2 e w3
    (request : QueryRequest) (rst : State W pyfloat) :
  lib_SentenceTransformer libs EMBEDDING_MODEL_NAME (iworld st)
  = (Ok model, w1) ->
  lib_PersistentClient libs CHROMA_DB_PATH w1 = (Ok client, w2) ->
  lib_get_collection libs client COLLECTION_NAME w2 = (Raise e, w3) ->
  fst (ChatbotService__init__ libs env st) = Raise e
  /\ icalls (snd (ChatbotService__init__ libs env st))
     = icalls st ++ [NewSentenceTransformer EMBEDDING_MODEL_NAME;
                     NewPersistentClient CHROMA_DB_PATH;
                     GetCollection COLLECTION_NAME]
  /\ chatbot_service_instance (fst (ChatbotService__init__ libs env st)) = None
  /\ http_status
       (fst (handle_chat_query
               (chatbot_service_instance
                  (fst (ChatbotService__init__ libs env st))) request rst))
     = 503%Z.
Proof.
  intros H1 H2 H3.
  assert (ChatbotService__init__ libs env st
          = (Raise e,
             {| iworld := w3;
                icalls := icalls st ++ [NewSentenceTransformer EMBEDDING_MODEL_NAME;
                                        NewPersistentClient CHROMA_DB_PATH;
                                        GetCollection COLLECTION_NAME] |}))
    as ->.
  { init_run. rewrite H1. simpl. rewrite H2. simpl. rewrite H3. simpl.
    by rewrite <- !(assoc_L (++)). }
  done.
Qed.

End Init.

Import Examples Examples2.

Lemma missing_collection_means_503_witness :
  fst (ChatbotService__init__ libs_without_collection ∅ init_start)
  = Raise (ValueError "Collection does not exist.")
  /\ http_status
       (fst (handle_chat_query
               (chatbot_service_instance
                  (fst (ChatbotService__init__ libs_without_collection ∅
                          init_start)))
               {| query := "What are my payment options?" |} start))
     = 503%Z.
Proof.
  destruct (missing_collection_means_503 libs_without_collection ∅ init_start
              (embedding_model_encode healthy) tt tt tt
              (ValueError "Collection does not exist.") tt
              {| query := "What are my payment options?" |} start)
    as (Hraise & _ & _ & Hstatus); try reflexivity.
  split; [exact Hraise|exact Hstatus].
Defined.

End startup_facts.

(* ================================================================== *)
(** * More on the builder *)
(* ================================================================== *)

Module build_more.

Import PyStr PyStr_facts Chroma build_knowledge_base.
Import build_knowledge_base_facts.

(** ** [preprocess_faqs] *)

Lemma preprocess_faqs_metadatas (faqs_data : list FAQ) :
  (preprocess_faqs faqs_data).2
  = map (fun faq => <["faq_id" := id faq]>
           (<["original_answer" := MStr (answer faq)]>
              (<["original_question" := MStr (question faq)]> ∅)))
      faqs_data.
Proof. unfold preprocess_faqs. by rewrite preprocess_faqs_acc. Qed.

(** X12. Documents and metadata stay aligned with the records: at the
    position of a record stand the text made of its question and answer
    and the dictionary with its id, its question and its answer. *)
Theorem preprocess_faqs_aligned (faqs_data : list FAQ) (i : nat) (faq : FAQ) :
  faqs_data !! i = Some faq ->
  (preprocess_faqs faqs_data).1 !! i
  = Some ("Question: " +:+ question faq +:+ " Answer: " +:+ answer faq)
  /\ exists m : Metadata,
       (preprocess_faqs faqs_data).2 !! i = Some m
       /\ m !! "faq_id" = Some (id faq)
       /\ m !! "original_question" = Some (MStr (question faq))
       /\ m !! "original_answer" = Some (MStr (answer faq))
       /\ dom m = {["faq_id"; "original_question"; "original_answer"]}.
Proof.
  intros Hi. rewrite preprocess_faqs_documents, preprocess_faqs_metadatas.
  rewrite !list_lookup_fmap, Hi. simpl. split; [done|].
  eexists. split; [done|].
  rewrite lookup_insert_eq.
  rewrite lookup_insert_ne by done. rewrite lookup_insert_ne by done.
  rewrite lookup_insert_eq.
  rewrite (lookup_insert_ne _ "faq_id" "original_answer") by done.
  rewrite lookup_insert_eq.
  repeat split.
Qed.

(** X13. Records are processed one by one, in order: the result for a
    list put together from two lists is the two results put together. *)
Theorem preprocess_faqs_app (a b : list FAQ) :
  preprocess_faqs (a ++ b)
  = ((preprocess_faqs a).1 ++ (preprocess_faqs b).1,
     (preprocess_faqs a).2 ++ (preprocess_faqs b).2).
Proof.
  rewrite (surjective_pairing (preprocess_faqs (a ++ b))).
  rewrite !preprocess_faqs_documents, !preprocess_faqs_metadatas.
  by rewrite !map_app.
Qed.

(** The id of a document is its position, written in decimal after
    [doc_]; the id a record brings along plays no part in it. *)
Lemma doc_ids_lookup (documents : list string) (i : nat) :
  i < length documents ->
  doc_ids documents !! i = Some ("doc_" +:+ str_of_nat i).
Proof.
  intros Hi. unfold doc_ids. rewrite list_lookup_fmap.
  by rewrite lookup_seq_lt.
Qed.

Section Store.

Context {pyfloat : Type}.
Implicit Types (d : Disk pyfloat) (embeddings : list (list pyfloat)).

(** [collection.add] changes the collection it is called on, and no
    other. *)
Lemma collection_add_frame (handle key : string * string) embeddings
    (documents : list string) (metadatas : list Metadata) (ids : list string) d :
  key <> handle ->
  collections (snd (collection_add handle embeddings documents metadatas ids d))
    !! key
  = collections d !! key.
Proof.
  intros Hne. unfold collection_add. simpl.
  destruct (collections d !! handle); [|done].
  repeat (case_match; simpl; try done).
  by rewrite lookup_insert_ne.
Qed.

(** X14. [store_in_chromadb] never raises, whatever it is given and
    whatever the file system and the library do: it returns [True] or
    [False]; and when it returns [True] the database directory
    exists. *)
Theorem store_in_chromadb_returns (documents : list string) embeddings
    (metadatas : list Metadata) (db_path collection_name : string) d :
  exists success d',
    store_in_chromadb documents embeddings metadatas db_path collection_name d
    = (Ok success, d')
    /\ (success = true -> db_path ∈ directories d').
Proof.
  destruct (store_in_chromadb_run documents embeddings metadatas db_path
              collection_name d) as (success & d' & Hrun & _ & _ & Htrue).
  exists success, d'. split; [exact Hrun|].
  intros Hs. by destruct (Htrue Hs).
Qed.

(** X15. [store_in_chromadb] leaves every other collection as it was,
    in this database and in any other. *)
Theorem store_in_chromadb_frame (documents : list string) embeddings
    (metadatas : list Metadata) (db_path collection_name : string) d
    (key : string * string) :
  key <> (db_path, collection_name) ->
  collections
    (snd (store_in_chromadb documents embeddings metadatas db_path
            collection_name d)) !! key
  = collections d !! key.
Proof.
  intros Hkey.
  destruct (store_prepares db_path collection_name d)
    as [(d0 & -> & Hframe & _)|(d3 & old & -> & _ & _ & _ & Hframe & _)].
  { simpl. by apply Hframe. }
  rewrite <- (Hframe key Hkey).
  rewrite <- (collection_add_frame (db_path, collection_name) key embeddings
                documents metadatas (doc_ids documents) d3 Hkey).
  by destruct (collection_add _ _ _ _ _ d3) as [[[]|] d'].
Qed.

(** X16. There is no rollback.  When the number of embeddings differs
    from the number of documents, [store_in_chromadb] returns [False];
    and when the directory, the client, the delete call and the
    get-or-create call did not fail, it leaves the collection empty:
    what it held before is gone. *)
Theorem store_in_chromadb_no_rollback (documents : list string) embeddings
    (metadatas : list Metadata) (db_path collection_name : string) d :
  length embeddings <> length documents ->
  exists d',
    store_in_chromadb documents embeddings metadatas db_path collection_name d
    = (Ok false, d')
    /\ (fails_makedirs (faults d) db_path = None ->
        fails_client (faults d) db_path = None ->
        fails_call (faults d) (DeleteCollection collection_name) = None ->
        fails_call (faults d) (GetOrCreateCollection collection_name) = None ->
        collections d' !! (db_path, collection_name) = Some []).
Proof.
  intros Hlen.
  destruct (store_prepares db_path collection_name d)
    as [(d0 & Hrun & _ & _ & Hf & _)
       |(d3 & old & Hrun & Hc3 & Hnew & _)].
  { exists d0. split; [apply Hrun|]. intros F1 F2 _ F4.
    rewrite F1, F2, F4 in Hf.
    destruct Hf as [[? ?]|[[? ?]|[? ?]]]; discriminate. }
  rewrite Hrun.
  destruct (collection_add_cases (db_path, collection_name) embeddings
              documents metadatas (doc_ids documents) d3 old Hc3)
    as (r & d4 & -> & _ & _ & _ & Hr).
  destruct r as [[]|e].
  - destruct Hr as (_ & _ & He & _). by rewrite doc_ids_length in He.
  - exists d4. split; [done|]. intros _ _ F3 _.
    rewrite Hr, Hc3. by rewrite (Hnew F3).
Qed.

(** X17. Building twice is building once: when a run and a second run
    with the same arguments both return [True], and the delete call
    does not fail, the second run leaves the collection as the first
    run left it. *)
Theorem store_in_chromadb_twice (documents : list string) embeddings
    (metadatas : list Metadata) (db_path collection_name : string) d :
  fst (store_in_chromadb documents embeddings metadatas db_path
         collection_name d) = Ok true ->
  fst (store_in_chromadb documents embeddings metadatas db_path
         collection_name
         (snd (store_in_chromadb documents embeddings metadatas db_path
                 collection_name d))) = Ok true ->
  fails_call (faults d) (DeleteCollection collection_name) = None ->
  collections
    (snd (store_in_chromadb documents embeddings metadatas db_path
            collection_name
            (snd (store_in_chromadb documents embeddings metadatas db_path
                    collection_name d))))
    !! (db_path, collection_name)
  = collections
      (snd (store_in_chromadb documents embeddings metadatas db_path
              collection_name d))
      !! (db_path, collection_name).
Proof.
  destruct (store_in_chromadb_run documents embeddings metadatas db_path
              collection_name d) as (s1 & d1 & -> & Hf1 & _ & H1).
  simpl.
  destruct (store_in_chromadb_run documents embeddings metadatas db_path
              collection_name d1) as (s2 & d2 & -> & _ & _ & H2).
  simpl. intros [= ->] [= ->] F.
  destruct (H1 eq_refl) as (_ & _ & _ & _ & _ & C1 & _).
  destruct (H2 eq_refl) as (_ & _ & _ & _ & _ & C2 & _).
  rewrite C1 by exact F. rewrite C2; [done|]. by rewrite Hf1.
Qed.

Lemma make_items_lookup (ids : list string) embeddings
    (documents : list string) (metadatas : list Metadata) (i : nat)
    (id : string) (e : list pyfloat) (t : string) (m : Metadata) :
  ids !! i = Some id -> embeddings !! i = Some e ->
  documents !! i = Some t -> metadatas !! i = Some m ->
  make_items ids embeddings documents metadatas !! i
  = Some {| item_id := id; item_embedding := e;
            item_document := t; item_metadata := m |}.
Proof.
  revert ids embeddings documents metadatas.
  induction i as [|i IH]; intros [|? ids] [|? embs] [|? docs] [|? metas];
    simpl; try done.
  - by intros [= ->] [= ->] [= ->] [= ->].
  - apply IH.
Qed.

(** X18. What was stored can be read back by position: when
    [store_in_chromadb] returns [True] and the delete call did not
    fail, there were one embedding and one metadata dictionary per
    document, the collection has as many items as there were
    documents, and the item at a position carries the document, the
    embedding and the metadata of that position under the id [doc_]
    followed by the position. *)
Theorem store_in_chromadb_item (documents : list string) embeddings
    (metadatas : list Metadata) (db_path collection_name : string) d
    (i : nat) (t : string) :
  fst (store_in_chromadb documents embeddings metadatas db_path
         collection_name d) = Ok true ->
  fails_call (faults d) (DeleteCollection collection_name) = None ->
  documents !! i = Some t ->
  exists (e : list pyfloat) (m : Metadata) items,
    embeddings !! i = Some e
    /\ metadatas !! i = Some m
    /\ collections
         (snd (store_in_chromadb documents embeddings metadatas db_path
                 collection_name d)) !! (db_path, collection_name)
       = Some items
    /\ length items = length documents
    /\ items !! i
       = Some {| item_id := "doc_" +:+ str_of_nat i; item_embedding := e;
                 item_document := t; item_metadata := m |}.
Proof.
  destruct (store_in_chromadb_run documents embeddings metadatas db_path
              collection_name d) as (s1 & d1 & -> & _ & _ & H1).
  simpl. intros [= ->] F Ht.
  destruct (H1 eq_refl) as (_ & _ & _ & He & Hm & C1 & _).
  pose proof (lookup_lt_Some _ _ _ Ht) as Hi.
  destruct (lookup_lt_is_Some_2 embeddings i) as [e Hemb]; [by rewrite He|].
  destruct (lookup_lt_is_Some_2 metadatas i) as [m Hmeta]; [by rewrite Hm|].
  exists e, m. eexists. split; [exact Hemb|]. split; [exact Hmeta|].
  split; [by apply C1|]. split.
  - rewrite make_items_length; rewrite doc_ids_length; done.
  - apply make_items_lookup; try done. by apply doc_ids_lookup.
Qed.

End Store.

Import Examples Examples2.

(** A database directory that cannot be made: the result is [False],
    no client call is made, and nothing is on the disk afterwards. *)
Example store_in_chromadb_unwritable :
  store_in_chromadb (preprocess_faqs two_faqs).1 two_embeddings
    (preprocess_faqs two_faqs).2 CHROMA_DB_PATH COLLECTION_NAME
    unwritable_disk
  = (Ok false, unwritable_disk).
Proof. reflexivity. Qed.

Lemma store_in_chromadb_item_witness :
  exists (e : list Z) (m : Metadata) items,
    two_embeddings !! 1 = Some e
    /\ (preprocess_faqs two_faqs).2 !! 1 = Some m
    /\ collections
         (snd (store_in_chromadb (preprocess_faqs two_faqs).1 two_embeddings
                 (preprocess_faqs two_faqs).2 CHROMA_DB_PATH COLLECTION_NAME
                 built_disk))
         !! (CHROMA_DB_PATH, COLLECTION_NAME)
       = Some items
    /\ length items = length (preprocess_faqs two_faqs).1
    /\ items !! 1
       = Some {| item_id := "doc_" +:+ str_of_nat 1; item_embedding := e;
                 item_document :=
                   "Question: How long does delivery take? Answer: Three to five working days.";
                 item_metadata := m |}.
Proof.
  apply (store_in_chromadb_item (preprocess_faqs two_faqs).1 two_embeddings
           (preprocess_faqs two_faqs).2 CHROMA_DB_PATH COLLECTION_NAME
           built_disk 1);
    [vm_compute; reflexivity|reflexivity|reflexivity].
Defined.

Lemma preprocess_faqs_aligned_witness :
  (preprocess_faqs [payment_faq]).1 !! 0 = Some payment_doc
  /\ exists m : Metadata,
       (preprocess_faqs [payment_faq]).2 !! 0 = Some m
       /\ m !! "faq_id" = Some (MStr "1").
Proof.
  destruct (preprocess_faqs_aligned [payment_faq] 0 payment_faq)
    as (Hdoc & m & Hm & Hid & _); [reflexivity|].
  split; [exact Hdoc|]. exists m. split; [exact Hm|exact Hid].
Defined.

Lemma store_in_chromadb_frame_witness :
  collections
    (snd (store_in_chromadb ["new text"] [[1; 2]%Z] [∅]
            CHROMA_DB_PATH "another_collection" used_disk))
    !! (CHROMA_DB_PATH, COLLECTION_NAME)
  = collections used_disk !! (CHROMA_DB_PATH, COLLECTION_NAME).
Proof.
  apply (store_in_chromadb_frame ["new text"] [[1; 2]%Z] [∅]
           CHROMA_DB_PATH "another_collection" used_disk).
  discriminate.
Defined.

Lemma store_in_chromadb_no_rollback_witness :
  exists d',
    store_in_chromadb (preprocess_faqs two_faqs).1 [[1; 2]%Z]
      (preprocess_faqs two_faqs).2 CHROMA_DB_PATH COLLECTION_NAME built_disk
    = (Ok false, d')
    /\ collections d' !! (CHROMA_DB_PATH, COLLECTION_NAME) = Some []
    /\ collections built_disk !! (CHROMA_DB_PATH, COLLECTION_NAME) <> Some [].
Proof.
  destruct (store_in_chromadb_no_rollback (preprocess_faqs two_faqs).1
              [[1; 2]%Z] (preprocess_faqs two_faqs).2 CHROMA_DB_PATH
              COLLECTION_NAME built_disk) as (d' & Hrun & Hcol);
    [vm_compute; lia|].
  exists d'. split; [exact Hrun|].
  split; [by apply Hcol|]. vm_compute. discriminate.
Defined.

Lemma store_in_chromadb_twice_witness :
  collections
    (snd (store_in_chromadb (preprocess_faqs two_faqs).1 two_embeddings
            (preprocess_faqs two_faqs).2 CHROMA_DB_PATH COLLECTION_NAME
            (snd (store_in_chromadb (preprocess_faqs two_faqs).1
                    two_embeddings (preprocess_faqs two_faqs).2
                    CHROMA_DB_PATH COLLECTION_NAME built_disk))))
    !! (CHROMA_DB_PATH, COLLECTION_NAME)
  = collections
      (snd (store_in_chromadb (preprocess_faqs two_faqs).1 two_embeddings
              (preprocess_faqs two_faqs).2 CHROMA_DB_PATH COLLECTION_NAME
              built_disk))
      !! (CHROMA_DB_PATH, COLLECTION_NAME).
Proof.
  apply (store_in_chromadb_twice (preprocess_faqs two_faqs).1 two_embeddings
           (preprocess_faqs two_faqs).2 CHROMA_DB_PATH COLLECTION_NAME
           built_disk);
    [vm_compute; reflexivity|vm_compute; reflexivity|reflexivity].
Defined.

End build_more.

(* ================================================================== *)
(** * The build script *)
(* ================================================================== *)

Module build_script_facts.

Import PyStr Chroma build_knowledge_base build_knowledge_base_facts.
Import build_script.

Section Script.

Context {W pyfloat : Type}.
Implicit Types (tools : Tools W pyfloat) (st : BuildState W pyfloat).

Ltac script_run :=
  unfold main, load_faqs, generate_embeddings, try_except, bind, external,
    on_disk, ret; simpl.

(** X19. [load_faqs] never raises: a file that is missing, is not JSON
    or fails in any other way gives the empty list, and the disk is not
    touched. *)
Theorem load_faqs_fail_soft tools file_path st e w' :
  read_json tools file_path (bworld st) = (Raise e, w') ->
  load_faqs tools file_path st
  = (Ok [], {| bworld := w'; bdisk := bdisk st |}).
Proof. intros H. script_run. by rewrite H. Qed.

(** X20. [generate_embeddings] never raises: when the model cannot be
    loaded or the encoding fails it returns [None]. *)
Theorem generate_embeddings_fail_soft tools documents model_name st e w' :
  encode_documents tools model_name documents (bworld st) = (Raise e, w') ->
  generate_embeddings tools documents model_name st
  = (Ok None, {| bworld := w'; bdisk := bdisk st |}).
Proof. intros H. script_run. by rewrite H. Qed.

(** X21. A build that cannot go through does not touch the store: when
    no FAQ is loaded (the list is empty or loading fails) or the
    embeddings cannot be made, the script ends with the matching
    message and every collection, the old knowledge base included, is as
    it was. *)
Theorem main_keeps_store_on_failure tools st :
  match read_json tools FAQ_PATH (bworld st) with
  | (Raise _, _) | (Ok [], _) =>
      fst (main tools st) = Ok NoFaqs /\ bdisk (snd (main tools st)) = bdisk st
  | (Ok (faq :: faqs), w1) =>
      forall e w2,
        encode_documents tools MODEL_NAME
          (preprocess_faqs (faq :: faqs)).1 w1 = (Raise e, w2) ->
        fst (main tools st) = Ok EmbeddingFailed
        /\ bdisk (snd (main tools st)) = bdisk st
  end.
Proof.
  script_run.
  destruct (read_json tools FAQ_PATH (bworld st)) as [[[|faq faqs]|e] w1];
    simpl; [done| |done].
  intros e w2 He.
  rewrite preprocess_faqs_documents in *. simpl in *.
  by rewrite He.
Qed.

(** X22. A build that gets as far as the store: with at least one
    FAQ loaded and the embeddings made, the script calls
    [store_in_chromadb] on the documents, the embeddings and the
    metadata, and ends with the message of success when that returns
    [True] and with the message of the failed storage when it returns
    [False]; when it ends with success and the delete call did not
    fail, the collection holds exactly the new items. *)
Theorem main_completes tools st faq faqs w1 embeddings w2 :
  read_json tools FAQ_PATH (bworld st) = (Ok (faq :: faqs), w1) ->
  encode_documents tools MODEL_NAME (preprocess_faqs (faq :: faqs)).1 w1
  = (Ok embeddings, w2) ->
  let stored :=
    store_in_chromadb (preprocess_faqs (faq :: faqs)).1 embeddings
      (preprocess_faqs (faq :: faqs)).2 CHROMA_DB_PATH COLLECTION_NAME
      (bdisk st) in
  main tools st
  = (match fst stored with
     | Ok true => Ok Completed
     | Ok false => Ok StorageFailed
     | Raise e => Raise e
     end,
     {| bworld := w2; bdisk := snd stored |})
  /\ (fst stored = Ok true \/ fst stored = Ok false)
  /\ (fst (main tools st) = Ok Completed ->
      fails_call (faults (bdisk st)) (DeleteCollection COLLECTION_NAME) = None ->
      collections (bdisk (snd (main tools st)))
        !! (CHROMA_DB_PATH, COLLECTION_NAME)
      = Some (make_items (doc_ids (preprocess_faqs (faq :: faqs)).1)
                embeddings (preprocess_faqs (faq :: faqs)).1
                (preprocess_faqs (faq :: faqs)).2)).
Proof.
  intros Hr He stored.
  destruct (store_in_chromadb_run (preprocess_faqs (faq :: faqs)).1
              embeddings (preprocess_faqs (faq :: faqs)).2
              CHROMA_DB_PATH COLLECTION_NAME (bdisk st))
    as (success & d' & Hrun & _ & _ & Htrue).
  assert (main tools st
          = (match fst stored with
             | Ok true => Ok Completed
             | Ok false => Ok StorageFailed
             | Raise e => Raise e
             end,
             {| bworld := w2; bdisk := snd stored |})) as Hmain.
  { subst stored. rewrite Hrun.
    unfold main, load_faqs, try_except at 1, bind at 1 2, external, ret.
    rewrite Hr. cbv zeta.
    destruct ((preprocess_faqs (faq :: faqs)).1) as [|doc docs] eqn:D.
    { rewrite preprocess_faqs_documents in D. discriminate. }
    unfold generate_embeddings, try_except, bind, external, on_disk, ret.
    simpl. rewrite He. simpl. rewrite Hrun. by destruct success. }
  split; [exact Hmain|]. subst stored. rewrite Hmain, Hrun. simpl.
  split; [destruct success; auto|].
  destruct success; [|discriminate].
  intros _ F. destruct (Htrue eq_refl) as (_ & _ & _ & _ & _ & Hcol & _).
  by apply Hcol.
Qed.

End Script.

Import Examples Examples2.

Lemma load_faqs_fail_soft_witness :
  load_faqs
    {| read_json := fun _ w => (Raise (OtherError "FileNotFoundError"), w);
       encode_documents := encode_documents good_tools |}
    FAQ_PATH (build_start used_disk)
  = (Ok [], build_start used_disk).
Proof.
  apply (load_faqs_fail_soft _ FAQ_PATH (build_start used_disk)
           (OtherError "FileNotFoundError") tt).
  reflexivity.
Defined.

Lemma generate_embeddings_fail_soft_witness :
  generate_embeddings tools_without_model ["a"] MODEL_NAME
    (build_start used_disk)
  = (Ok None, build_start used_disk).
Proof.
  apply (generate_embeddings_fail_soft tools_without_model ["a"] MODEL_NAME
           (build_start used_disk) (OtherError "OSError") tt).
  reflexivity.
Defined.

Lemma main_keeps_store_on_failure_witness :
  fst (main tools_without_model (build_start used_disk)) = Ok EmbeddingFailed
  /\ bdisk (snd (main tools_without_model (build_start used_disk)))
     = used_disk.
Proof.
  apply (main_keeps_store_on_failure tools_without_model
           (build_start used_disk) (OtherError "OSError") tt).
  reflexivity.
Defined.

Lemma main_completes_witness :
  fst (main good_tools (build_start built_disk)) = Ok Completed
  /\ collections (bdisk (snd (main good_tools (build_start built_disk))))
       !! (CHROMA_DB_PATH, COLLECTION_NAME)
     = Some (make_items (doc_ids (preprocess_faqs [payment_faq]).1)
               [[1; 2]%Z] (preprocess_faqs [payment_faq]).1
               (preprocess_faqs [payment_faq]).2).
Proof.
  destruct (main_completes good_tools (build_start built_disk) payment_faq []
              tt [[1; 2]%Z] tt) as (Hmain & _ & Hcol);
    [reflexivity|reflexivity|].
  assert (fst (main good_tools (build_start built_disk)) = Ok Completed)
    as Hdone by (vm_compute; reflexivity).
  split; [exact Hdone|]. by apply Hcol.
Defined.

End build_script_facts.

(* ================================================================== *)
(** * The chat page *)
(* ================================================================== *)

Module streamlit_app_facts.

Import PyStr streamlit_app.

Section Run.

Context {W : Type}.
Implicit Types (post : string -> string -> W -> ui_result Response * W)
  (messages : list ChatMessage) (w : W).

(** X23. Every submitted question adds exactly two messages to the
    history, the question of the user and then one message of the
    assistant, whether the request succeeds, is refused or cannot be
    sent; the earlier messages stay as they are, and the request is made
    with the question as typed. *)
Theorem run_appends_two post messages (q : string) w :
  q <> "" ->
  exists shown,
    fst (run post messages (Some q) w)
    = messages ++ [ {| msg_role := "user"; msg_content := q |};
                    {| msg_role := "assistant"; msg_content := shown |} ]
    /\ snd (run post messages (Some q) w)
       = snd (post FASTAPI_BACKEND_URL q w).
Proof.
  intros Hq. destruct q as [|c q]; [done|]. unfold run, ask.
  destruct (post FASTAPI_BACKEND_URL (String c q) w) as [[response|e] w'].
  - destruct (raise_for_status response) as [[]|e].
    + destruct (json response) as [data|e].
      * eexists. by rewrite <- (assoc_L (++)).
      * destruct e; eexists; by rewrite <- (assoc_L (++)).
    + destruct e; eexists; by rewrite <- (assoc_L (++)).
  - destruct e; eexists; by rewrite <- (assoc_L (++)).
Qed.

(** Without a question, none or the empty one, the run changes
    nothing and sends nothing. *)
Lemma run_without_input post messages w :
  run post messages None w = (messages, w)
  /\ run post messages (Some "") w = (messages, w).
Proof. by split. Qed.

(** X24. A response with an error status never shows an answer: for a
    status from 400 to 599 the assistant message is the connection error
    with the text of the [HTTPError], whatever the body holds. *)
Theorem run_error_status post messages (q : string) w response w' :
  q <> "" ->
  post FASTAPI_BACKEND_URL q w = (Fine response, w') ->
  (400 <= status_code response < 600)%Z ->
  fst (run post messages (Some q) w)
  = messages ++ [ {| msg_role := "user"; msg_content := q |};
                  {| msg_role := "assistant";
                     msg_content :=
                       "Error connecting to the chatbot API: "
                         +:+ http_error_text response |} ].
Proof.
  intros Hq Hpost Hstatus. destruct q as [|c q]; [done|].
  unfold run, ask. rewrite Hpost. unfold raise_for_status.
  assert ((400 <=? status_code response)%Z && (status_code response <? 600)%Z
          = true) as ->.
  { apply andb_true_intro. split; [apply Z.leb_le|apply Z.ltb_lt]; lia. }
  by rewrite <- (assoc_L (++)).
Qed.

(** X25. A response with a status below 400 shows the value of the key
    [answer] of its body, and a fixed sentence when the body has no
    such key. *)
Theorem run_shows_answer post messages (q : string) w response w'
    (response_data : gmap string string) :
  q <> "" ->
  post FASTAPI_BACKEND_URL q w = (Fine response, w') ->
  (status_code response < 400)%Z ->
  json response = Fine response_data ->
  fst (run post messages (Some q) w)
  = messages ++ [ {| msg_role := "user"; msg_content := q |};
                  {| msg_role := "assistant";
                     msg_content :=
                       match response_data !! "answer" with
                       | Some bot_answer => bot_answer
                       | None => "Sorry, I couldn't get a proper answer."
                       end |} ].
Proof.
  intros Hq Hpost Hstatus Hjson. destruct q as [|c q]; [done|].
  unfold run, ask. rewrite Hpost. unfold raise_for_status.
  assert ((400 <=? status_code response)%Z = false) as ->.
  { apply Z.leb_gt. lia. }
  simpl. rewrite Hjson. rewrite <- (assoc_L (++)).
  by destruct (response_data !! "answer").
Qed.

End Run.

Import Examples2.

Lemma run_appends_two_witness :
  exists shown,
    fst (run rejecting_post [] (Some " ") tt)
    = [] ++ [ {| msg_role := "user"; msg_content := " " |};
              {| msg_role := "assistant"; msg_content := shown |} ]
    /\ snd (run rejecting_post [] (Some " ") tt)
       = snd (rejecting_post FASTAPI_BACKEND_URL " " tt).
Proof. apply (run_appends_two rejecting_post [] " " tt). discriminate. Defined.

Lemma run_error_status_witness :
  fst (run rejecting_post [] (Some " ") tt)
  = [] ++ [ {| msg_role := "user"; msg_content := " " |};
            {| msg_role := "assistant";
               msg_content :=
                 "Error connecting to the chatbot API: "
                   +:+ "400 Client Error: Bad Request" |} ].
Proof.
  apply (run_error_status rejecting_post [] " " tt
           {| status_code := 400;
              http_error_text := "400 Client Error: Bad Request";
              json := Fine {[ "answer" := "hidden" ]} |} tt).
  - discriminate.
  - reflexivity.
  - simpl. lia.
Defined.

Lemma run_shows_answer_witness :
  fst (run (fun _ _ w =>
              (Fine {| status_code := 200; http_error_text := "";
                       json := Fine ∅ |}, w))
         [] (Some "hello") tt)
  = [] ++ [ {| msg_role := "user"; msg_content := "hello" |};
            {| msg_role := "assistant";
               msg_content :=
                 match (∅ : gmap string string) !! "answer" with
                 | Some bot_answer => bot_answer
                 | None => "Sorry, I couldn't get a proper answer."
                 end |} ].
Proof.
  apply (run_shows_answer
           (fun _ _ w =>
              (Fine {| status_code := 200; http_error_text := "";
                       json := Fine ∅ |}, w))
           [] "hello" tt
           {| status_code := 200; http_error_text := ""; json := Fine ∅ |}
           tt ∅).
  - discriminate.
  - reflexivity.
  - simpl. lia.
  - reflexivity.
Defined.

End streamlit_app_facts.
